(** * Reconciliation of the Contour and Envoy Services

    A shallow embedding of
    [internal/operator/controller/contour/service.go] of the Contour
    operator, and the properties of its ensure / update / delete protocol.

    The Go code talks to the Kubernetes API through the controller-runtime
    [client.Client] interface.  The interface is embedded as a type class
    over an abstract world, every call is recorded in a trace, and the
    methods of the reconciler are written in a small state monad over the
    world, the trace and the log. *)

From Stdlib Require Import ZArith List Ascii String.
From stdpp Require Import base strings gmap.

Local Open Scope Z_scope.
Local Open Scope string_scope.

(** ** Kubernetes API types *)

(** [metav1.ObjectMeta], [metav1.LabelSelector] and [types.NamespacedName].
    A Go [map[string]string] is a [gmap string string]; the nil map and the
    empty map are both [∅]. *)
Module metav1.
Record ObjectMeta := {
  Namespace : string;
  Name : string;
  ResourceVersion : string;
  Labels : gmap string string;
  Annotations : gmap string string
}.

Record LabelSelector := { MatchLabels : gmap string string }.
End metav1.

Module types.
Record NamespacedName := { Namespace : string; Name : string }.
End types.

(** [intstr.IntOrString]; [Type_] is Go's field [Type], whose zero value is
    [Int]. *)
Module intstr.
Inductive Kind := Int | String.
Record IntOrString := { Type_ : Kind; IntVal : Z; StrVal : string }.
End intstr.

(** [corev1.Service] with the fields of [ServiceSpec] that the reconciler
    sets, and [ClusterIP], which the API server assigns.  [Protocol],
    [ServiceType], [ServiceAffinity] and [ServiceExternalTrafficPolicyType]
    are string types in Go; an unset field holds the empty string.
    [Protocol_] and [Type_] are Go's fields [Protocol] and [Type]. *)
Module corev1.
Definition Protocol := string.
Definition ProtocolTCP : Protocol := "TCP".

Definition ServiceType := string.
Definition ServiceTypeClusterIP : ServiceType := "ClusterIP".
Definition ServiceTypeLoadBalancer : ServiceType := "LoadBalancer".

Definition ServiceAffinity := string.
Definition ServiceAffinityNone : ServiceAffinity := "None".

Definition ServiceExternalTrafficPolicyType := string.
Definition ServiceExternalTrafficPolicyTypeLocal
  : ServiceExternalTrafficPolicyType := "Local".

Record ServicePort := {
  Name : string;
  Protocol_ : Protocol;
  Port : Z;
  TargetPort : intstr.IntOrString;
  NodePort : Z
}.

Record ServiceSpec := {
  Ports : list ServicePort;
  Selector : gmap string string;
  ClusterIP : string;
  Type_ : ServiceType;
  ExternalTrafficPolicy : ServiceExternalTrafficPolicyType;
  SessionAffinity : ServiceAffinity
}.

Record Service := { ObjectMeta : metav1.ObjectMeta; Spec : ServiceSpec }.
End corev1.

(** [operatorv1alpha1.Contour]: the embedded [ObjectMeta] (whose [Name] and
    [Namespace] Go promotes to [contour.Name] and [contour.Namespace]) and
    [Spec.Namespace.Name], the namespace selected for the child resources. *)
Module operatorv1alpha1.
Record NamespaceSpec := { Name : string }.
Record ContourSpec := { Namespace : NamespaceSpec }.
Record Contour := { ObjectMeta : metav1.ObjectMeta; Spec : ContourSpec }.
End operatorv1alpha1.

Abbreviation Service := corev1.Service.
Abbreviation Contour := operatorv1alpha1.Contour.

(** Field paths as the Go code writes them. *)
Definition contour_Name (contour : Contour) : string :=
  metav1.Name (operatorv1alpha1.ObjectMeta contour).
Definition contour_Namespace (contour : Contour) : string :=
  metav1.Namespace (operatorv1alpha1.ObjectMeta contour).
Definition contour_Spec_Namespace_Name (contour : Contour) : string :=
  operatorv1alpha1.Name (operatorv1alpha1.Namespace (operatorv1alpha1.Spec contour)).

Definition svc_Namespace (svc : Service) : string :=
  metav1.Namespace (corev1.ObjectMeta svc).
Definition svc_Name (svc : Service) : string :=
  metav1.Name (corev1.ObjectMeta svc).
Definition svc_Labels (svc : Service) : gmap string string :=
  metav1.Labels (corev1.ObjectMeta svc).
Definition svc_Annotations (svc : Service) : gmap string string :=
  metav1.Annotations (corev1.ObjectMeta svc).

(** Go's conversion [int32(x)] of an integer: wrap-around to 32 bits, two's
    complement.  On a value in range it is the identity. *)
Definition int32 (x : Z) : Z := (x + 2 ^ 31) mod 2 ^ 32 - 2 ^ 31.

(** ** Declarations of the operator that live outside [service.go] *)

(** The constants and selectors [service.go] refers to and does not
    declare: the two owner label keys of [api/v1alpha1], the port numbers,
    and the pod selectors of the Contour deployment and of the Envoy daemon
    set.  They are taken as parameters. *)
Class Consts := {
  OwningContourNameLabel : string;
  OwningContourNsLabel : string;
  xdsPort : Z;
  httpPort : Z;
  httpsPort : Z;
  contourDeploymentPodSelector : metav1.LabelSelector;
  envoyDaemonSetPodSelector : metav1.LabelSelector
}.

(** The functions [service.go] calls and does not define: the owner label
    check of the package, and the two change detectors of
    [internal/equality], which return the service to send and whether an
    update is needed.  They are taken as parameters as well. *)
Class Helpers := {
  ownerLabelsExist : Service → Contour → bool;
  ClusterIPServiceChanged : Service → Service → Service * bool;
  LoadBalancerServiceChanged : Service → Service → Service * bool
}.

(** ** Constants of [service.go] *)

Definition contourSvcName : string := "contour".
Definition envoySvcName : string := "envoy".
Definition awsLbBackendProtoAnnotation : string :=
  "service.beta.kubernetes.io/aws-load-balancer-backend-protocol".

(** ** Desired state *)

Section Desired.
Context {consts : Consts}.

(** A Go map literal with two keys: the compiler rejects a literal whose
    constant keys coincide, so the order of the two insertions is
    immaterial for any pair of keys the Go code compiles with. *)
Definition ownerLabels (contour : Contour) : gmap string string :=
  <[OwningContourNameLabel := contour_Name contour]>
    (<[OwningContourNsLabel := contour_Namespace contour]> ∅).

Definition DesiredContourService (contour : Contour) : Service :=
  {| corev1.ObjectMeta :=
       {| metav1.Namespace := contour_Spec_Namespace_Name contour;
          metav1.Name := contourSvcName;
          metav1.ResourceVersion := "";
          metav1.Labels := ownerLabels contour;
          metav1.Annotations := ∅ |};
     corev1.Spec :=
       {| corev1.Ports :=
            [ {| corev1.Name := "xds";
                 corev1.Port := int32 xdsPort;
                 corev1.Protocol_ := corev1.ProtocolTCP;
                 corev1.TargetPort :=
                   {| intstr.Type_ := intstr.Int;
                      intstr.IntVal := int32 xdsPort;
                      intstr.StrVal := "" |};
                 corev1.NodePort := 0 |} ];
          corev1.Selector := metav1.MatchLabels contourDeploymentPodSelector;
          corev1.ClusterIP := "";
          corev1.Type_ := corev1.ServiceTypeClusterIP;
          corev1.ExternalTrafficPolicy := "";
          corev1.SessionAffinity := corev1.ServiceAffinityNone |} |}.

Definition DesiredEnvoyService (contour : Contour) : Service :=
  {| corev1.ObjectMeta :=
       {| metav1.Namespace := contour_Spec_Namespace_Name contour;
          metav1.Name := envoySvcName;
          metav1.ResourceVersion := "";
          metav1.Annotations := {[ awsLbBackendProtoAnnotation := "tcp" ]};
          metav1.Labels := ownerLabels contour |};
     corev1.Spec :=
       {| corev1.ExternalTrafficPolicy :=
            corev1.ServiceExternalTrafficPolicyTypeLocal;
          corev1.Ports :=
            [ {| corev1.Name := "http";
                 corev1.Port := int32 httpPort;
                 corev1.Protocol_ := corev1.ProtocolTCP;
                 corev1.TargetPort :=
                   {| intstr.Type_ := intstr.Int;
                      intstr.IntVal := int32 httpPort;
                      intstr.StrVal := "" |};
                 corev1.NodePort := 0 |};
              {| corev1.Name := "https";
                 corev1.Port := int32 httpsPort;
                 corev1.Protocol_ := corev1.ProtocolTCP;
                 corev1.TargetPort :=
                   {| intstr.Type_ := intstr.Int;
                      intstr.IntVal := int32 httpsPort;
                      intstr.StrVal := "" |};
                 corev1.NodePort := 0 |} ];
          corev1.Selector := metav1.MatchLabels envoyDaemonSetPodSelector;
          corev1.ClusterIP := "";
          corev1.Type_ := corev1.ServiceTypeLoadBalancer;
          corev1.SessionAffinity := corev1.ServiceAffinityNone |} |}.
End Desired.

(** ** Errors *)

(** A Go [error] value: an API status error with its reason
    ([*errors.StatusError] of apimachinery), any other error, or an error
    that [fmt.Errorf] built with [%w] around another one.  A Go function
    that returns [error] returns an [option error], [None] being [nil]; one
    that returns a value and an error returns a [result]. *)
Inductive error :=
| StatusError (reason : string) (message : string)
| errorString (message : string)
| wrapError (msg : string) (err : error).

Inductive result (A : Type) :=
| Ok (a : A)
| Err (err : error).
Arguments Ok {A} a.
Arguments Err {A} err.

(** The method [Error()]. *)
Definition Error (e : error) : string :=
  match e with
  | StatusError _ message => message
  | errorString message => message
  | wrapError msg _ => msg
  end.

Definition StatusReasonUnknown : string := "".
Definition StatusReasonNotFound : string := "NotFound".
Definition StatusReasonAlreadyExists : string := "AlreadyExists".

(** [errors.ReasonForError] and [errors.IsNotFound] of apimachinery: the
    reason of the API status found in the chain of wrapped errors. *)
Fixpoint ReasonForError (e : error) : string :=
  match e with
  | StatusError reason _ => reason
  | errorString _ => StatusReasonUnknown
  | wrapError _ err => ReasonForError err
  end.

Definition IsNotFound (e : error) : bool :=
  String.eqb (ReasonForError e) StatusReasonNotFound.

(** The verbs of [fmt] that [service.go] uses: [%s] takes the next string
    operand, [%w] the message of the wrapped error. *)
Fixpoint Sprintf (format : string) (args : list string) (w : string) : string :=
  match format with
  | String "%"%char (String "s"%char rest) =>
      match args with
      | a :: args' => a +:+ Sprintf rest args' w
      | [] => "%!s(MISSING)" +:+ Sprintf rest [] w
      end
  | String "%"%char (String "w"%char rest) => w +:+ Sprintf rest args w
  | String c rest => String c (Sprintf rest args w)
  | EmptyString => EmptyString
  end.

(** [fmt.Errorf(format, args..., err)] with one [%w] verb. *)
Definition Errorf (format : string) (args : list string) (err : error) : error :=
  wrapError (Sprintf format args (Error err)) err.

(** An error wrapped the way [service.go] wraps the errors of the store:
    the operation that failed, the namespace and name of the service, then
    the message of the error wrapped. *)
Definition failedTo (op ns name : string) (err : error) : error :=
  wrapError ("failed to " +:+ op +:+ " service " +:+ ns +:+ "/" +:+ name
             +:+ ": " +:+ Error err) err.

(** ** The store *)

(** [client.Client] of controller-runtime, over a world [W] that stands for
    the API server.  [Get] fills the object it is given or returns an error;
    the reconciler always passes the zero [Service] and drops it on error,
    so [Get] here returns the object read or the error.  [Create], [Update]
    and [Delete] return Go's [error]; what they write back into the object
    they are given is not modelled: after such a call the reconciler reads
    only the namespace and the name of the object, for its messages. *)
Class Client (W : Type) := {
  Get : types.NamespacedName → W → result Service * W;
  Create : Service → W → option error * W;
  Update : Service → W → option error * W;
  Delete : Service → W → option error * W
}.

(** The calls made on the client, in order. *)
Inductive Call :=
| CallGet (key : types.NamespacedName)
| CallCreate (obj : Service)
| CallUpdate (obj : Service)
| CallDelete (obj : Service).

(** A line of [r.log.Info(msg, "namespace", ns, "name", name)]. *)
Record LogEntry := { msg : string; keysAndValues : list string }.

(** ** The reconciler monad *)

Record RState (W : Type) := mkRState {
  world : W;
  calls : list Call;
  logs : list LogEntry
}.
Arguments mkRState {W}.
Arguments world {W}.
Arguments calls {W}.
Arguments logs {W}.

Definition M (W A : Type) : Type := RState W → A * RState W.

(** The monad operations, under stdpp's notations [x ← m; k], [m ;; k]
    and [mret]. *)
#[global] Instance M_ret (W : Type) : MRet (M W) := λ A a st, (a, st).

#[global] Instance M_bind (W : Type) : MBind (M W) :=
  λ A B k m st, let (a, st') := m st in k a st'.

(** A run from a world, with an empty trace and an empty log. *)
Definition run {W A} (m : M W A) (w : W) : A * RState W :=
  m (mkRState w [] []).

Section Reconciler.
Context {W : Type} {client : Client W} {consts : Consts} {helpers : Helpers}.

(** A call on the client: its answer, the new world, and the call appended
    to the trace. *)
Definition client_Get (key : types.NamespacedName) : M W (result Service) :=
  λ st, let (r, w) := Get key (world st) in
        (r, mkRState w (calls st ++ [CallGet key]) (logs st)).

Definition client_Create (obj : Service) : M W (option error) :=
  λ st, let (r, w) := Create obj (world st) in
        (r, mkRState w (calls st ++ [CallCreate obj]) (logs st)).

Definition client_Update (obj : Service) : M W (option error) :=
  λ st, let (r, w) := Update obj (world st) in
        (r, mkRState w (calls st ++ [CallUpdate obj]) (logs st)).

Definition client_Delete (obj : Service) : M W (option error) :=
  λ st, let (r, w) := Delete obj (world st) in
        (r, mkRState w (calls st ++ [CallDelete obj]) (logs st)).

Definition log_Info (msg : string) (keysAndValues : list string) : M W unit :=
  λ st, (tt, mkRState (world st) (calls st)
                      (logs st ++ [Build_LogEntry msg keysAndValues])).

(** ** The methods of [service.go] *)

Definition currentContourService (contour : Contour) : M W (result Service) :=
  let key := {| types.Namespace := contour_Spec_Namespace_Name contour;
                types.Name := contourSvcName |} in
  client_Get key.

Definition currentEnvoyService (contour : Contour) : M W (result Service) :=
  let key := {| types.Namespace := contour_Spec_Namespace_Name contour;
                types.Name := envoySvcName |} in
  client_Get key.

Definition createService (svc : Service) : M W (option error) :=
  e ← client_Create svc;
  match e with
  | Some err =>
      mret (Some (Errorf "failed to create service %s/%s: %w"
                        [svc_Namespace svc; svc_Name svc] err))
  | None =>
      log_Info "created service"
               ["namespace"; svc_Namespace svc; "name"; svc_Name svc] ;;
      mret None
  end.

Definition updateContourServiceIfNeeded (contour : Contour)
    (current desired : Service) : M W (option error) :=
  if negb (ownerLabelsExist current contour) then
    log_Info "service missing owner labels; skipped updating"
             ["namespace"; svc_Namespace current; "name"; svc_Name current] ;;
    mret None
  else
    let '(svc, updated) := ClusterIPServiceChanged current desired in
    if updated then
      e ← client_Update svc;
      match e with
      | Some err =>
          mret (Some (Errorf "failed to update service %s/%s: %w"
                            [svc_Namespace svc; svc_Name svc] err))
      | None =>
          log_Info "updated service"
                   ["namespace"; svc_Namespace svc; "name"; svc_Name svc] ;;
          mret None
      end
    else
      log_Info "service unchanged; skipped updating"
               ["namespace"; svc_Namespace current; "name"; svc_Name current] ;;
      mret None.

Definition updateEnvoyServiceIfNeeded (contour : Contour)
    (current desired : Service) : M W (option error) :=
  if negb (ownerLabelsExist current contour) then
    log_Info "service missing owner labels; skipped updating"
             ["namespace"; svc_Namespace current; "name"; svc_Name current] ;;
    mret None
  else
    let '(svc, updated) := LoadBalancerServiceChanged current desired in
    if updated then
      e ← client_Update svc;
      match e with
      | Some err =>
          mret (Some (Errorf "failed to update service %s/%s: %w"
                            [svc_Namespace svc; svc_Name svc] err))
      | None =>
          log_Info "updated service"
                   ["namespace"; svc_Namespace svc; "name"; svc_Name svc] ;;
          mret None
      end
    else
      log_Info "service unchanged; skipped updating"
               ["namespace"; svc_Namespace current; "name"; svc_Name current] ;;
      mret None.

Definition ensureContourService (contour : Contour) : M W (option error) :=
  let desired := DesiredContourService contour in
  r ← currentContourService contour;
  match r with
  | Err err =>
      if IsNotFound err then createService desired
      else mret (Some (Errorf "failed to get service %s/%s: %w"
                             [svc_Namespace desired; svc_Name desired] err))
  | Ok current =>
      e ← updateContourServiceIfNeeded contour current desired;
      match e with
      | Some err =>
          mret (Some (Errorf "failed to update service %s/%s: %w"
                            [svc_Namespace desired; svc_Name desired] err))
      | None => mret None
      end
  end.

Definition ensureEnvoyService (contour : Contour) : M W (option error) :=
  let desired := DesiredEnvoyService contour in
  r ← currentEnvoyService contour;
  match r with
  | Err err =>
      if IsNotFound err then createService desired
      else mret (Some (Errorf "failed to get service %s/%s: %w"
                             [svc_Namespace desired; svc_Name desired] err))
  | Ok current =>
      e ← updateEnvoyServiceIfNeeded contour current desired;
      match e with
      | Some err =>
          mret (Some (Errorf "failed to update service %s/%s: %w"
                            [svc_Namespace desired; svc_Name desired] err))
      | None => mret None
      end
  end.

Definition ensureContourServiceDeleted (contour : Contour) : M W (option error) :=
  r ← currentContourService contour;
  match r with
  | Err err => if IsNotFound err then mret None else mret (Some err)
  | Ok svc =>
      if negb (ownerLabelsExist svc contour) then
        log_Info "service not labeled; skipping deletion"
                 ["namespace"; svc_Namespace svc; "name"; svc_Name svc] ;;
        mret None
      else
        e ← client_Delete svc;
        match e with
        | Some err => if IsNotFound err then mret None else mret (Some err)
        | None =>
            log_Info "deleted service"
                     ["namespace"; svc_Namespace svc; "name"; svc_Name svc] ;;
            mret None
        end
  end.

Definition ensureEnvoyServiceDeleted (contour : Contour) : M W (option error) :=
  r ← currentEnvoyService contour;
  match r with
  | Err err => if IsNotFound err then mret None else mret (Some err)
  | Ok svc =>
      if negb (ownerLabelsExist svc contour) then
        log_Info "service not labeled; skipping deletion"
                 ["namespace"; svc_Namespace svc; "name"; svc_Name svc] ;;
        mret None
      else
        e ← client_Delete svc;
        match e with
        | Some err => if IsNotFound err then mret None else mret (Some err)
        | None =>
            log_Info "deleted service"
                     ["namespace"; svc_Namespace svc; "name"; svc_Name svc] ;;
            mret None
        end
  end.

(** ** The two kinds of child and the two operations

    The reconciler treats the Contour service (internal) and the Envoy
    service (external) by one pattern; the definitions below name the kind
    so that a property can be stated once for both. *)

Inductive ServiceKind := Internal | External.

Definition svcName (kind : ServiceKind) : string :=
  match kind with Internal => contourSvcName | External => envoySvcName end.

Definition svcKey (contour : Contour) (kind : ServiceKind) : types.NamespacedName :=
  {| types.Namespace := contour_Spec_Namespace_Name contour;
     types.Name := svcName kind |}.

Definition desired (contour : Contour) (kind : ServiceKind) : Service :=
  match kind with
  | Internal => DesiredContourService contour
  | External => DesiredEnvoyService contour
  end.

Definition serviceChanged (kind : ServiceKind) : Service → Service → Service * bool :=
  match kind with
  | Internal => ClusterIPServiceChanged
  | External => LoadBalancerServiceChanged
  end.

Definition EnsureExists (contour : Contour) (kind : ServiceKind) : M W (option error) :=
  match kind with
  | Internal => ensureContourService contour
  | External => ensureEnvoyService contour
  end.

Definition EnsureDeleted (contour : Contour) (kind : ServiceKind) : M W (option error) :=
  match kind with
  | Internal => ensureContourServiceDeleted contour
  | External => ensureEnvoyServiceDeleted contour
  end.

(** The answer of the client to a mutating call. *)
Definition answer (c : Call) (w : W) : option error * W :=
  match c with
  | CallGet _ => (None, w)
  | CallCreate obj => Create obj w
  | CallUpdate obj => Update obj w
  | CallDelete obj => Delete obj w
  end.

End Reconciler.

Definition isGet (c : Call) : bool :=
  match c with CallGet _ => true | _ => false end.
Definition isCreate (c : Call) : bool :=
  match c with CallCreate _ => true | _ => false end.
Definition isUpdate (c : Call) : bool :=
  match c with CallUpdate _ => true | _ => false end.
Definition isDelete (c : Call) : bool :=
  match c with CallDelete _ => true | _ => false end.

Definition isMutating (c : Call) : bool := negb (isGet c).

(** How many calls of a trace satisfy a test. *)
Definition count (p : Call → bool) (l : list Call) : nat :=
  length (List.filter p l).

(** ** The owner label check and the change detectors, from the spec *)

#[global] Instance intstr_Kind_eq_dec : EqDecision intstr.Kind.
Proof. solve_decision. Defined.

#[global] Instance IntOrString_eq_dec : EqDecision intstr.IntOrString.
Proof. solve_decision. Defined.

#[global] Instance ServicePort_eq_dec : EqDecision corev1.ServicePort.
Proof. solve_decision. Defined.

(** Field updates of a [ServiceSpec] and of a [Service]. *)
Definition set_Ports (spec : corev1.ServiceSpec) (v : list corev1.ServicePort) :=
  {| corev1.Ports := v;
     corev1.Selector := corev1.Selector spec;
     corev1.ClusterIP := corev1.ClusterIP spec;
     corev1.Type_ := corev1.Type_ spec;
     corev1.ExternalTrafficPolicy := corev1.ExternalTrafficPolicy spec;
     corev1.SessionAffinity := corev1.SessionAffinity spec |}.

Definition set_Selector (spec : corev1.ServiceSpec) (v : gmap string string) :=
  {| corev1.Ports := corev1.Ports spec;
     corev1.Selector := v;
     corev1.ClusterIP := corev1.ClusterIP spec;
     corev1.Type_ := corev1.Type_ spec;
     corev1.ExternalTrafficPolicy := corev1.ExternalTrafficPolicy spec;
     corev1.SessionAffinity := corev1.SessionAffinity spec |}.

Definition set_Type (spec : corev1.ServiceSpec) (v : corev1.ServiceType) :=
  {| corev1.Ports := corev1.Ports spec;
     corev1.Selector := corev1.Selector spec;
     corev1.ClusterIP := corev1.ClusterIP spec;
     corev1.Type_ := v;
     corev1.ExternalTrafficPolicy := corev1.ExternalTrafficPolicy spec;
     corev1.SessionAffinity := corev1.SessionAffinity spec |}.

Definition set_ExternalTrafficPolicy (spec : corev1.ServiceSpec)
    (v : corev1.ServiceExternalTrafficPolicyType) :=
  {| corev1.Ports := corev1.Ports spec;
     corev1.Selector := corev1.Selector spec;
     corev1.ClusterIP := corev1.ClusterIP spec;
     corev1.Type_ := corev1.Type_ spec;
     corev1.ExternalTrafficPolicy := v;
     corev1.SessionAffinity := corev1.SessionAffinity spec |}.

Definition set_SessionAffinity (spec : corev1.ServiceSpec)
    (v : corev1.ServiceAffinity) :=
  {| corev1.Ports := corev1.Ports spec;
     corev1.Selector := corev1.Selector spec;
     corev1.ClusterIP := corev1.ClusterIP spec;
     corev1.Type_ := corev1.Type_ spec;
     corev1.ExternalTrafficPolicy := corev1.ExternalTrafficPolicy spec;
     corev1.SessionAffinity := v |}.

Definition set_Annotations (meta : metav1.ObjectMeta) (v : gmap string string) :=
  {| metav1.Namespace := metav1.Namespace meta;
     metav1.Name := metav1.Name meta;
     metav1.ResourceVersion := metav1.ResourceVersion meta;
     metav1.Labels := metav1.Labels meta;
     metav1.Annotations := v |}.

(** One step of the diff: a managed field of [current] that differs from
    [desired] takes the value of [desired] and marks the change. *)
Definition reconcileField {A : Type} `{EqDecision A}
    (get : corev1.ServiceSpec → A)
    (set : corev1.ServiceSpec → A → corev1.ServiceSpec)
    (desired : corev1.ServiceSpec)
    (acc : corev1.ServiceSpec * bool) : corev1.ServiceSpec * bool :=
  if decide (get acc.1 = get desired) then acc
  else (set acc.1 (get desired), true).

(** The same step for one annotation, merged by key: the key takes the
    value it has in [desired] (or goes, when [desired] does not have it) and
    every other key stays. *)
Definition reconcileAnnotation (key : string) (desired : gmap string string)
    (acc : gmap string string * bool) : gmap string string * bool :=
  if decide (acc.1 !! key = desired !! key) then acc
  else (match desired !! key with
        | Some v => <[key := v]> acc.1
        | None => delete key acc.1
        end, true).

Section SpecModel.
Context {consts : Consts}.

(** Modelled from the spec: [ownerLabelsExist] is declared in another file
    of the package.  Section 4.3: true iff both ownership labels are
    present on the resource and their values equal the parent's name and
    namespace respectively. *)
Definition spec_ownerLabelsExist (svc : Service) (contour : Contour) : bool :=
  bool_decide (svc_Labels svc !! OwningContourNameLabel = Some (contour_Name contour))
  && bool_decide (svc_Labels svc !! OwningContourNsLabel = Some (contour_Namespace contour)).

(** Modelled from the spec: [equality.ClusterIPServiceChanged] is declared
    in [internal/equality].  Section 4.4: start from [current]; the managed
    fields of the internal kind are the ports, the selector and the session
    affinity; a managed field that differs is overwritten with the desired
    value and marks the change; every other field of [current] stays. *)
Definition spec_ClusterIPServiceChanged (current desired : Service) : Service * bool :=
  let d := corev1.Spec desired in
  let '(spec, changed) :=
    reconcileField corev1.SessionAffinity set_SessionAffinity d
      (reconcileField corev1.Selector set_Selector d
         (reconcileField corev1.Ports set_Ports d
            (corev1.Spec current, false))) in
  ({| corev1.ObjectMeta := corev1.ObjectMeta current; corev1.Spec := spec |},
   changed).

(** Modelled from the spec: [equality.LoadBalancerServiceChanged] is
    declared in [internal/equality].  Section 4.4: the external kind
    compares, in addition to the fields of the internal kind, the exposure
    type, the external-traffic policy and the cloud annotation; annotations
    are merged by key, foreign keys are left untouched. *)
Definition spec_LoadBalancerServiceChanged (current desired : Service) : Service * bool :=
  let d := corev1.Spec desired in
  let '(spec, changed) :=
    reconcileField corev1.ExternalTrafficPolicy set_ExternalTrafficPolicy d
      (reconcileField corev1.Type_ set_Type d
         (reconcileField corev1.SessionAffinity set_SessionAffinity d
            (reconcileField corev1.Selector set_Selector d
               (reconcileField corev1.Ports set_Ports d
                  (corev1.Spec current, false))))) in
  let '(annotations, changed) :=
    reconcileAnnotation awsLbBackendProtoAnnotation (svc_Annotations desired)
      (svc_Annotations current, changed) in
  ({| corev1.ObjectMeta := set_Annotations (corev1.ObjectMeta current) annotations;
      corev1.Spec := spec |},
   changed).

Definition specHelpers : Helpers :=
  {| ownerLabelsExist := spec_ownerLabelsExist;
     ClusterIPServiceChanged := spec_ClusterIPServiceChanged;
     LoadBalancerServiceChanged := spec_LoadBalancerServiceChanged |}.

End SpecModel.

(** ** A store in memory *)

Definition keyOf (obj : Service) : types.NamespacedName :=
  {| types.Namespace := svc_Namespace obj; types.Name := svc_Name obj |}.

Definition hasKey (key : types.NamespacedName) (obj : Service) : bool :=
  String.eqb (svc_Namespace obj) (types.Namespace key)
  && String.eqb (svc_Name obj) (types.Name key).

Definition NewNotFound (name : string) : error :=
  StatusError StatusReasonNotFound ("services " +:+ name +:+ " not found").

Definition NewAlreadyExists (name : string) : error :=
  StatusError StatusReasonAlreadyExists ("services " +:+ name +:+ " already exists").

(** Modelled from the spec: the API server behind the client is not part of
    the sources.  Section 4.2: [get] returns the resource or NotFound,
    [create] and [update] store the resource, [delete] removes it or reports
    NotFound.  The world is the list of the objects stored, each found by
    its own namespace and name. *)
Definition mem_Get (key : types.NamespacedName) (s : list Service)
    : result Service * list Service :=
  match find (hasKey key) s with
  | Some obj => (Ok obj, s)
  | None => (Err (NewNotFound (types.Name key)), s)
  end.

Definition mem_Create (obj : Service) (s : list Service)
    : option error * list Service :=
  if existsb (hasKey (keyOf obj)) s
  then (Some (NewAlreadyExists (svc_Name obj)), s)
  else (None, obj :: s).

Definition mem_Update (obj : Service) (s : list Service)
    : option error * list Service :=
  if existsb (hasKey (keyOf obj)) s
  then (None, map (λ o, if hasKey (keyOf obj) o then obj else o) s)
  else (Some (NewNotFound (svc_Name obj)), s).

Definition mem_Delete (obj : Service) (s : list Service)
    : option error * list Service :=
  if existsb (hasKey (keyOf obj)) s
  then (None, List.filter (λ o, negb (hasKey (keyOf obj) o)) s)
  else (Some (NewNotFound (svc_Name obj)), s).

Definition memClient : Client (list Service) :=
  {| Get := mem_Get; Create := mem_Create;
     Update := mem_Update; Delete := mem_Delete |}.

(** A client that gives fixed answers, whatever it is asked: the world is
    the table of its answers. *)
Record Scripted := {
  onGet : result Service;
  onCreate : option error;
  onUpdate : option error;
  onDelete : option error
}.

Definition scriptedClient : Client Scripted :=
  {| Get := λ _ w, (onGet w, w);
     Create := λ _ w, (onCreate w, w);
     Update := λ _ w, (onUpdate w, w);
     Delete := λ _ w, (onDelete w, w) |}.

(** ** Sample values *)

(** Values for the parameters, to evaluate the definitions on: two distinct
    label keys, three port numbers and two pod selectors. *)
Definition sampleConsts : Consts :=
  {| OwningContourNameLabel := "operator.projectcontour.io/owning-contour-name";
     OwningContourNsLabel := "operator.projectcontour.io/owning-contour-namespace";
     xdsPort := 8001;
     httpPort := 80;
     httpsPort := 443;
     contourDeploymentPodSelector := {| metav1.MatchLabels := {[ "app" := "contour" ]} |};
     envoyDaemonSetPodSelector := {| metav1.MatchLabels := {[ "app" := "envoy" ]} |} |}.

(** A parent [default/sample] that selects the namespace [projectcontour]
    for its children. *)
Definition sampleContour : Contour :=
  {| operatorv1alpha1.ObjectMeta :=
       {| metav1.Namespace := "default"; metav1.Name := "sample";
          metav1.ResourceVersion := "1";
          metav1.Labels := ∅; metav1.Annotations := ∅ |};
     operatorv1alpha1.Spec :=
       {| operatorv1alpha1.Namespace := {| operatorv1alpha1.Name := "projectcontour" |} |} |}.

(** A service named [contour] in [projectcontour] that somebody else
    made: no owner labels, another port. *)
Definition foreignService : Service :=
  {| corev1.ObjectMeta :=
       {| metav1.Namespace := "projectcontour"; metav1.Name := "contour";
          metav1.ResourceVersion := "7";
          metav1.Labels := ∅; metav1.Annotations := ∅ |};
     corev1.Spec :=
       {| corev1.Ports := []; corev1.Selector := ∅;
          corev1.ClusterIP := "10.0.0.7";
          corev1.Type_ := corev1.ServiceTypeClusterIP;
          corev1.ExternalTrafficPolicy := "";
          corev1.SessionAffinity := corev1.ServiceAffinityNone |} |}.

(** The desired Contour service of the sample parent as the API server
    would return it, with an address assigned and the selector emptied by
    somebody. *)
Definition staleService : Service :=
  let d := DesiredContourService (consts := sampleConsts) sampleContour in
  {| corev1.ObjectMeta := corev1.ObjectMeta d;
     corev1.Spec :=
       {| corev1.Ports := corev1.Ports (corev1.Spec d); corev1.Selector := ∅;
          corev1.ClusterIP := "10.0.0.8";
          corev1.Type_ := corev1.ServiceTypeClusterIP;
          corev1.ExternalTrafficPolicy := "";
          corev1.SessionAffinity := corev1.ServiceAffinityNone |} |}.

(** The sample parent again, with a label and a newer resource version: the
    same name, namespace and selected namespace. *)
Definition relabelledContour : Contour :=
  {| operatorv1alpha1.ObjectMeta :=
       {| metav1.Namespace := "default"; metav1.Name := "sample";
          metav1.ResourceVersion := "2";
          metav1.Labels := {[ "team" := "edge" ]}; metav1.Annotations := ∅ |};
     operatorv1alpha1.Spec :=
       {| operatorv1alpha1.Namespace := {| operatorv1alpha1.Name := "projectcontour" |} |} |}.

(** Answers of a store that cannot be reached, that refuses a create, that
    refuses the update of the stale service, and that has lost the service
    between the get and the delete. *)
Definition unreachable : Scripted :=
  {| onGet := Err (errorString "connection refused");
     onCreate := Some (errorString "connection refused");
     onUpdate := Some (errorString "connection refused");
     onDelete := Some (errorString "connection refused") |}.

Definition createForbidden : Scripted :=
  {| onGet := Err (NewNotFound "contour");
     onCreate := Some (StatusError "Forbidden" "services is forbidden");
     onUpdate := None;
     onDelete := None |}.

Definition updateConflict : Scripted :=
  {| onGet := Ok staleService;
     onCreate := None;
     onUpdate := Some (StatusError "Conflict" "the object has been modified");
     onDelete := None |}.

Definition deleteRaced : Scripted :=
  {| onGet := Ok staleService;
     onCreate := None;
     onUpdate := None;
     onDelete := Some (NewNotFound "contour") |}.

Definition deleteForbidden : Scripted :=
  {| onGet := Ok staleService;
     onCreate := None;
     onUpdate := None;
     onDelete := Some (StatusError "Forbidden" "services is forbidden") |}.

(** The two operations for the sample parent, with the sample constants
    and the owner label check and detectors of the spec. *)
Definition sampleEnsureExists {W : Type} (client : Client W) (kind : ServiceKind)
    : M W (option error) :=
  EnsureExists (client := client) (consts := sampleConsts)
    (helpers := specHelpers (consts := sampleConsts)) sampleContour kind.

Definition sampleEnsureDeleted {W : Type} (client : Client W) (kind : ServiceKind)
    : M W (option error) :=
  EnsureDeleted (client := client)
    (helpers := specHelpers (consts := sampleConsts)) sampleContour kind.

(** ** The object that a call addresses *)

(** The namespace and name under which the API server looks up the object
    of a call: the key of a get, and the namespace and name of the object
    itself for a create, an update or a delete. *)
Definition callKey (c : Call) : types.NamespacedName :=
  match c with
  | CallGet key => key
  | CallCreate obj | CallUpdate obj | CallDelete obj => keyOf obj
  end.

(** ** Log lines and more sample values *)

(** The line that [r.log.Info(msg, "namespace", svc.Namespace, "name",
    svc.Name)] writes. *)
Definition logLine (msg : string) (svc : Service) : LogEntry :=
  {| msg := msg;
     keysAndValues := ["namespace"; svc_Namespace svc; "name"; svc_Name svc] |}.

(** A second parent, [default/other], that selects [projectcontour] as the
    sample parent does. *)
Definition otherContour : Contour :=
  {| operatorv1alpha1.ObjectMeta :=
       {| metav1.Namespace := "default"; metav1.Name := "other";
          metav1.ResourceVersion := "1";
          metav1.Labels := ∅; metav1.Annotations := ∅ |};
     operatorv1alpha1.Spec :=
       {| operatorv1alpha1.Namespace := {| operatorv1alpha1.Name := "projectcontour" |} |} |}.

(** A store that accepts every call and holds the stale service. *)
Definition compliant : Scripted :=
  {| onGet := Ok staleService;
     onCreate := None;
     onUpdate := None;
     onDelete := None |}.

(** * Properties *)

(** Unfolding of the methods down to the calls on the client. *)
Ltac unfold_methods :=
  unfold run, EnsureExists, EnsureDeleted,
    ensureContourService, ensureEnvoyService,
    ensureContourServiceDeleted, ensureEnvoyServiceDeleted,
    updateContourServiceIfNeeded, updateEnvoyServiceIfNeeded,
    createService, currentContourService, currentEnvoyService,
    client_Get, client_Create, client_Update, client_Delete, log_Info,
    mbind, mret, M_bind, M_ret, svcKey in *.

Ltac reduce_state :=
  cbn [world calls logs fst snd svcName desired serviceChanged answer negb] in *.

(** Introduce the hypotheses of a statement, up to the [let] that names
    the run. *)
Ltac intro_hyps := repeat match goal with |- ∀ _, _ => intro end.

(** Run the code along the answers that the hypotheses give. *)
Ltac exec :=
  reduce_state;
  repeat (match goal with
          | H : ?l = _ |- context [?l] => rewrite H
          end; reduce_state).

(** Run the code along every answer the client and the helpers can give. *)
Ltac exec_cases :=
  exec;
  repeat (match goal with
          | |- context [Get ?k ?w] => destruct (Get k w) as [[?|?] ?] eqn:?
          | |- context [Create ?o ?w] => destruct (Create o w) as [[?|] ?] eqn:?
          | |- context [Update ?o ?w] => destruct (Update o w) as [[?|] ?] eqn:?
          | |- context [Delete ?o ?w] => destruct (Delete o w) as [[?|] ?] eqn:?
          | |- context [IsNotFound ?e] => destruct (IsNotFound e) eqn:?
          | |- context [ownerLabelsExist ?a ?b] =>
              destruct (ownerLabelsExist a b) eqn:?
          | |- context [ClusterIPServiceChanged ?a ?b] =>
              destruct (ClusterIPServiceChanged a b) as [? []] eqn:?
          | |- context [LoadBalancerServiceChanged ?a ?b] =>
              destruct (LoadBalancerServiceChanged a b) as [? []] eqn:?
          end; exec).

Section Properties.
Context {W : Type} {client : Client W} {consts : Consts} {helpers : Helpers}.

Implicit Types (contour : Contour) (kind : ServiceKind) (w : W).

Lemma append_empty_r (s : string) : s +:+ "" = s.
Proof.
  induction s as [|c s IH]; [done|].
  change (String c (s +:+ "") = String c s). by f_equal.
Qed.

(** The three formats of [service.go], evaluated. *)
Lemma Errorf_get (ns name : string) (err : error) :
  Errorf "failed to get service %s/%s: %w" [ns; name] err
  = failedTo "get" ns name err.
Proof.
  unfold Errorf, failedTo. f_equal. cbn [Sprintf]. by rewrite append_empty_r.
Qed.

Lemma Errorf_create (ns name : string) (err : error) :
  Errorf "failed to create service %s/%s: %w" [ns; name] err
  = failedTo "create" ns name err.
Proof.
  unfold Errorf, failedTo. f_equal. cbn [Sprintf]. by rewrite append_empty_r.
Qed.

Lemma Errorf_update (ns name : string) (err : error) :
  Errorf "failed to update service %s/%s: %w" [ns; name] err
  = failedTo "update" ns name err.
Proof.
  unfold Errorf, failedTo. f_equal. cbn [Sprintf]. by rewrite append_empty_r.
Qed.

Lemma desired_Namespace contour kind :
  svc_Namespace (desired contour kind) = contour_Spec_Namespace_Name contour.
Proof. by destruct kind. Qed.

Lemma desired_Name contour kind : svc_Name (desired contour kind) = svcName kind.
Proof. by destruct kind. Qed.

Lemma desired_Labels contour kind :
  svc_Labels (desired contour kind) = ownerLabels contour.
Proof. by destruct kind. Qed.

Lemma desired_key contour kind : keyOf (desired contour kind) = svcKey contour kind.
Proof. by destruct kind. Qed.

Lemma ownerLabels_Name contour :
  ownerLabels contour !! OwningContourNameLabel = Some (contour_Name contour).
Proof. unfold ownerLabels. by rewrite lookup_insert_eq. Qed.

Lemma ownerLabels_Ns contour :
  OwningContourNameLabel ≠ OwningContourNsLabel →
  ownerLabels contour !! OwningContourNsLabel = Some (contour_Namespace contour).
Proof.
  intros Hne. unfold ownerLabels.
  rewrite lookup_insert_ne by done. by rewrite lookup_insert_eq.
Qed.

(** *** Outcomes of EnsureExists, one lemma per path *)

Lemma exists_get_failed contour kind w err w1 :
  Get (svcKey contour kind) w = (Err err, w1) →
  IsNotFound err = false →
  let out := run (EnsureExists contour kind) w in
  out.1 = Some (Errorf "failed to get service %s/%s: %w"
                       [contour_Spec_Namespace_Name contour; svcName kind] err)
  ∧ calls out.2 = [CallGet (svcKey contour kind)]
  ∧ world out.2 = w1.
Proof. intro_hyps. destruct kind; unfold_methods; exec; by cbn. Qed.

Lemma exists_absent contour kind w err w1 r w2 :
  Get (svcKey contour kind) w = (Err err, w1) →
  IsNotFound err = true →
  Create (desired contour kind) w1 = (r, w2) →
  let out := run (EnsureExists contour kind) w in
  out.1 = match r with
          | Some e =>
              Some (Errorf "failed to create service %s/%s: %w"
                           [contour_Spec_Namespace_Name contour; svcName kind] e)
          | None => None
          end
  ∧ calls out.2 = [CallGet (svcKey contour kind); CallCreate (desired contour kind)]
  ∧ world out.2 = w2.
Proof. intro_hyps. destruct kind; unfold_methods; exec; by destruct r. Qed.

Lemma exists_unowned contour kind w current w1 :
  Get (svcKey contour kind) w = (Ok current, w1) →
  ownerLabelsExist current contour = false →
  let out := run (EnsureExists contour kind) w in
  out.1 = None
  ∧ calls out.2 = [CallGet (svcKey contour kind)]
  ∧ world out.2 = w1.
Proof. intro_hyps. destruct kind; unfold_methods; exec; by cbn. Qed.

Lemma exists_unchanged contour kind w current w1 svc :
  Get (svcKey contour kind) w = (Ok current, w1) →
  serviceChanged kind current (desired contour kind) = (svc, false) →
  let out := run (EnsureExists contour kind) w in
  out.1 = None
  ∧ calls out.2 = [CallGet (svcKey contour kind)]
  ∧ world out.2 = w1.
Proof. intro_hyps. destruct kind; unfold_methods; exec_cases; by cbn. Qed.

Lemma exists_changed contour kind w current w1 svc r w2 :
  Get (svcKey contour kind) w = (Ok current, w1) →
  ownerLabelsExist current contour = true →
  serviceChanged kind current (desired contour kind) = (svc, true) →
  Update svc w1 = (r, w2) →
  let out := run (EnsureExists contour kind) w in
  out.1 = match r with
          | Some e =>
              Some (Errorf "failed to update service %s/%s: %w"
                      [contour_Spec_Namespace_Name contour; svcName kind]
                      (Errorf "failed to update service %s/%s: %w"
                         [svc_Namespace svc; svc_Name svc] e))
          | None => None
          end
  ∧ calls out.2 = [CallGet (svcKey contour kind); CallUpdate svc]
  ∧ world out.2 = w2.
Proof. intro_hyps. destruct kind; unfold_methods; exec; by destruct r. Qed.

(** *** Outcomes of EnsureDeleted *)

Lemma deleted_get_failed contour kind w err w1 :
  Get (svcKey contour kind) w = (Err err, w1) →
  let out := run (EnsureDeleted contour kind) w in
  out.1 = (if IsNotFound err then None else Some err)
  ∧ calls out.2 = [CallGet (svcKey contour kind)]
  ∧ world out.2 = w1.
Proof.
  intro_hyps. destruct kind; unfold_methods; exec; by destruct (IsNotFound err).
Qed.

Lemma deleted_unowned contour kind w svc w1 :
  Get (svcKey contour kind) w = (Ok svc, w1) →
  ownerLabelsExist svc contour = false →
  let out := run (EnsureDeleted contour kind) w in
  out.1 = None
  ∧ calls out.2 = [CallGet (svcKey contour kind)]
  ∧ world out.2 = w1.
Proof. intro_hyps. destruct kind; unfold_methods; exec; by cbn. Qed.

Lemma deleted_owned contour kind w svc w1 r w2 :
  Get (svcKey contour kind) w = (Ok svc, w1) →
  ownerLabelsExist svc contour = true →
  Delete svc w1 = (r, w2) →
  let out := run (EnsureDeleted contour kind) w in
  out.1 = match r with
          | Some e => if IsNotFound e then None else Some e
          | None => None
          end
  ∧ calls out.2 = [CallGet (svcKey contour kind); CallDelete svc]
  ∧ world out.2 = w2.
Proof.
  intro_hyps. destruct kind; unfold_methods; exec; destruct r as [e|]; try done;
    by destruct (IsNotFound e).
Qed.

(** C2.  When the get of the store reports NotFound, EnsureExists makes
    exactly two calls, the get and one create of [desired contour kind]; it
    makes no update, leaves the world as the create left it, and returns
    success when the create succeeds. *)
Theorem ensure_exists_creates_when_absent contour kind w err w1 r w2 :
  Get (svcKey contour kind) w = (Err err, w1) →
  IsNotFound err = true →
  Create (desired contour kind) w1 = (r, w2) →
  let out := run (EnsureExists contour kind) w in
  calls out.2 = [CallGet (svcKey contour kind); CallCreate (desired contour kind)]
  ∧ count isCreate (calls out.2) = 1%nat
  ∧ count isUpdate (calls out.2) = 0%nat
  ∧ world out.2 = w2
  ∧ (r = None → out.1 = None).
Proof.
  intros Hget Hnf Hcreate.
  destruct kind; unfold_methods; exec; destruct r; cbn; repeat split; auto;
    discriminate.
Qed.

(** C3.  When the service read from the store does not pass the owner label
    check, EnsureExists makes the get and nothing else, whatever the
    change detector would say, and returns no error. *)
Theorem ensure_exists_skips_unowned contour kind w current w1 :
  Get (svcKey contour kind) w = (Ok current, w1) →
  ownerLabelsExist current contour = false →
  let out := run (EnsureExists contour kind) w in
  out.1 = None
  ∧ calls out.2 = [CallGet (svcKey contour kind)]
  ∧ count isUpdate (calls out.2) = 0%nat
  ∧ world out.2 = w1.
Proof.
  intros Hget Hown.
  destruct kind; unfold_methods; exec; by cbn.
Qed.

(** C4.  When the service read from the store does not pass the owner label
    check, EnsureDeleted makes the get and nothing else and returns
    success; and whenever a delete appears in the trace of EnsureDeleted,
    its argument is the service that the get returned and that service
    passes the owner label check. *)
Theorem ensure_deleted_gated_by_ownership contour kind w :
  let out := run (EnsureDeleted contour kind) w in
  (∀ svc w1,
     Get (svcKey contour kind) w = (Ok svc, w1) →
     ownerLabelsExist svc contour = false →
     out.1 = None
     ∧ calls out.2 = [CallGet (svcKey contour kind)]
     ∧ count isDelete (calls out.2) = 0%nat
     ∧ world out.2 = w1)
  ∧ (∀ obj,
       CallDelete obj ∈ calls out.2 →
       ∃ w1, Get (svcKey contour kind) w = (Ok obj, w1)
             ∧ ownerLabelsExist obj contour = true).
Proof.
  split.
  - intros svc w1 Hget Hown.
    destruct kind; unfold_methods; exec; by cbn.
  - intros obj.
    destruct kind; unfold_methods; exec_cases; cbn;
      rewrite ?elem_of_cons, ?elem_of_nil; intros Hin;
      repeat (destruct Hin as [Hin | Hin]); try done;
      injection Hin as ->; eauto.
Qed.

(** C5.  EnsureDeleted returns success without a delete when the get
    reports NotFound; and when the service is there and owned and the
    delete itself reports NotFound, the result is success as well. *)
Theorem ensure_deleted_tolerates_not_found contour kind w :
  let out := run (EnsureDeleted contour kind) w in
  (∀ err w1,
     Get (svcKey contour kind) w = (Err err, w1) →
     IsNotFound err = true →
     out.1 = None
     ∧ calls out.2 = [CallGet (svcKey contour kind)]
     ∧ count isDelete (calls out.2) = 0%nat)
  ∧ (∀ svc w1 err w2,
       Get (svcKey contour kind) w = (Ok svc, w1) →
       ownerLabelsExist svc contour = true →
       Delete svc w1 = (Some err, w2) →
       IsNotFound err = true →
       out.1 = None
       ∧ calls out.2 = [CallGet (svcKey contour kind); CallDelete svc]).
Proof.
  split.
  - intros err w1 Hget Hnf.
    destruct kind; unfold_methods; exec; by cbn.
  - intros svc w1 err w2 Hget Hown Hdel Hnf.
    destruct kind; unfold_methods; exec; by cbn.
Qed.

(** C6, amended.  EnsureExists returns every error of the store wrapped in
    a message that names the operation and the namespace and name of the
    service: a get error that is not NotFound, any create error, and any
    update error (the last one wrapped twice, by the update method and by
    its caller).  EnsureDeleted returns a get or delete error that is not
    NotFound as the store gave it, without wrapping. *)
Theorem store_errors_reach_the_caller contour kind w :
  let ns := contour_Spec_Namespace_Name contour in
  let name := svcName kind in
  let ex := run (EnsureExists contour kind) w in
  let del := run (EnsureDeleted contour kind) w in
  (∀ err w1,
     Get (svcKey contour kind) w = (Err err, w1) →
     IsNotFound err = false →
     ex.1 = Some (failedTo "get" ns name err) ∧ del.1 = Some err)
  ∧ (∀ err w1 e w2,
       Get (svcKey contour kind) w = (Err err, w1) →
       IsNotFound err = true →
       Create (desired contour kind) w1 = (Some e, w2) →
       ex.1 = Some (failedTo "create" ns name e))
  ∧ (∀ current w1 svc e w2,
       Get (svcKey contour kind) w = (Ok current, w1) →
       ownerLabelsExist current contour = true →
       serviceChanged kind current (desired contour kind) = (svc, true) →
       Update svc w1 = (Some e, w2) →
       ex.1 = Some (failedTo "update" ns name
                      (failedTo "update" (svc_Namespace svc) (svc_Name svc) e)))
  ∧ (∀ svc w1 e w2,
       Get (svcKey contour kind) w = (Ok svc, w1) →
       ownerLabelsExist svc contour = true →
       Delete svc w1 = (Some e, w2) →
       IsNotFound e = false →
       del.1 = Some e).
Proof.
  intros ns name ex del. subst ns name ex del.
  split; [|split; [|split]].
  - intros err w1 Hget Hnf. split.
    + destruct (exists_get_failed contour kind w err w1 Hget Hnf) as [-> _].
      by rewrite Errorf_get.
    + destruct (deleted_get_failed contour kind w err w1 Hget) as [-> _].
      by rewrite Hnf.
  - intros err w1 e w2 Hget Hnf Hcreate.
    destruct (exists_absent contour kind w err w1 _ w2 Hget Hnf Hcreate) as [-> _].
    by rewrite Errorf_create.
  - intros current w1 svc e w2 Hget Hown Hch Hupd.
    destruct (exists_changed contour kind w current w1 svc _ w2 Hget Hown Hch Hupd)
      as [-> _].
    by rewrite !Errorf_update.
  - intros svc w1 e w2 Hget Hown Hdel Hnf.
    destruct (deleted_owned contour kind w svc w1 _ w2 Hget Hown Hdel) as [-> _].
    by rewrite Hnf.
Qed.

(** C9.  A run of EnsureExists or of EnsureDeleted makes exactly one get,
    first, and at most one more call: a create or an update for
    EnsureExists, a delete for EnsureDeleted.  When the get fails with an
    error that is not NotFound the run stops there with an error; and a
    mutating call that fails is the last call of the run, which returns an
    error (for a delete: unless the error is NotFound). *)
Theorem one_get_and_at_most_one_mutation contour kind w :
  let key := svcKey contour kind in
  let ex := run (EnsureExists contour kind) w in
  let del := run (EnsureDeleted contour kind) w in
  (calls ex.2 = [CallGet key]
   ∨ (∃ obj, calls ex.2 = [CallGet key; CallCreate obj])
   ∨ (∃ obj, calls ex.2 = [CallGet key; CallUpdate obj]))
  ∧ (calls del.2 = [CallGet key]
     ∨ (∃ obj, calls del.2 = [CallGet key; CallDelete obj]))
  ∧ count isGet (calls ex.2) = 1%nat
  ∧ count isGet (calls del.2) = 1%nat
  ∧ (count isMutating (calls ex.2) ≤ 1)%nat
  ∧ (count isMutating (calls del.2) ≤ 1)%nat
  ∧ (∀ err w1,
       Get key w = (Err err, w1) →
       IsNotFound err = false →
       (is_Some ex.1 ∧ calls ex.2 = [CallGet key] ∧ world ex.2 = w1)
       ∧ (is_Some del.1 ∧ calls del.2 = [CallGet key] ∧ world del.2 = w1))
  ∧ (∀ r w1 c err w2,
       Get key w = (r, w1) →
       answer c w1 = (Some err, w2) →
       (calls ex.2 = [CallGet key; c] → is_Some ex.1 ∧ world ex.2 = w2)
       ∧ (calls del.2 = [CallGet key; c] →
          IsNotFound err = false → is_Some del.1 ∧ world del.2 = w2)).
Proof.
  intros key ex del. subst key ex del.
  assert (Hex : calls (run (EnsureExists contour kind) w).2 = [CallGet (svcKey contour kind)]
   ∨ (∃ obj, calls (run (EnsureExists contour kind) w).2 = [CallGet (svcKey contour kind); CallCreate obj])
   ∨ (∃ obj, calls (run (EnsureExists contour kind) w).2 = [CallGet (svcKey contour kind); CallUpdate obj])).
  { destruct kind; unfold_methods; exec_cases; cbn; eauto. }
  assert (Hdel : calls (run (EnsureDeleted contour kind) w).2 = [CallGet (svcKey contour kind)]
     ∨ (∃ obj, calls (run (EnsureDeleted contour kind) w).2 = [CallGet (svcKey contour kind); CallDelete obj])).
  { destruct kind; unfold_methods; exec_cases; cbn; eauto. }
  split; [exact Hex|]. split; [exact Hdel|].
  split; [|split; [|split; [|split; [|split]]]].
  - destruct Hex as [-> | [[obj ->] | [obj ->]]]; reflexivity.
  - destruct Hdel as [-> | [obj ->]]; reflexivity.
  - destruct Hex as [-> | [[obj ->] | [obj ->]]]; cbn; lia.
  - destruct Hdel as [-> | [obj ->]]; cbn; lia.
  - intros err w1 Hget Hnf. split.
    + destruct (exists_get_failed contour kind w err w1 Hget Hnf) as (-> & -> & ->).
      eauto.
    + destruct (deleted_get_failed contour kind w err w1 Hget) as (-> & -> & ->).
      rewrite Hnf. eauto.
  - intros [current | e0] w1 c err w2 Hget Hans; split.
    all: clear Hex Hdel; revert Hget Hans.
    all: destruct kind; unfold_methods; intros Hget Hans; exec_cases; cbn.
    all: intros; simplify_eq; cbn in Hans; simplify_eq.
    all: repeat match goal with
                | H1 : ?x = _, H2 : ?x = _ |- _ => rewrite H1 in H2
                end; simplify_eq; eauto; congruence.
Qed.

(** *** The traces of the two operations, whole *)

Lemma exists_trace contour kind w :
  calls (run (EnsureExists contour kind) w).2
  = CallGet (svcKey contour kind)
    :: match Get (svcKey contour kind) w with
       | (Err err, _) =>
           if IsNotFound err then [CallCreate (desired contour kind)] else []
       | (Ok current, _) =>
           if ownerLabelsExist current contour then
             let '(svc, updated) :=
               serviceChanged kind current (desired contour kind) in
             if updated then [CallUpdate svc] else []
           else []
       end.
Proof. destruct kind; unfold_methods; exec_cases; reflexivity. Qed.

Lemma deleted_trace contour kind w :
  calls (run (EnsureDeleted contour kind) w).2
  = CallGet (svcKey contour kind)
    :: match Get (svcKey contour kind) w with
       | (Err _, _) => []
       | (Ok svc, _) =>
           if ownerLabelsExist svc contour then [CallDelete svc] else []
       end.
Proof. destruct kind; unfold_methods; exec_cases; reflexivity. Qed.

(** C10.  The four operations read the child at the key made of the
    namespace that the parent selects, [contour.Spec.Namespace.Name], and of
    the fixed name of the kind.  When the get reports NotFound, EnsureExists
    does create the desired service, which lies in that namespace, and
    creates nothing else; an update is sent for the service that the
    detector made of the service read, and a delete for the service read
    itself.  So, against a store that returns under a key the object of that
    key, and with a detector that keeps the namespace and the name, every
    call of the four operations addresses the child in the selected
    namespace.  The owning-namespace label of the desired service holds the
    namespace of the parent itself, [contour.Namespace], so that the label
    differs from the namespace of the child whenever the two namespaces
    differ. *)
Theorem children_live_in_the_selected_namespace contour kind w :
  OwningContourNameLabel ≠ OwningContourNsLabel →
  let key := {| types.Namespace := contour_Spec_Namespace_Name contour;
                types.Name := svcName kind |} in
  let ex := run (EnsureExists contour kind) w in
  let del := run (EnsureDeleted contour kind) w in
  head (calls ex.2) = Some (CallGet key)
  ∧ head (calls del.2) = Some (CallGet key)
  ∧ (∀ obj, CallCreate obj ∈ calls ex.2 → obj = desired contour kind)
  ∧ (∀ err w1,
       Get key w = (Err err, w1) →
       IsNotFound err = true →
       calls ex.2 = [CallGet key; CallCreate (desired contour kind)])
  ∧ (∀ current w1 svc,
       Get key w = (Ok current, w1) →
       ownerLabelsExist current contour = true →
       serviceChanged kind current (desired contour kind) = (svc, true) →
       calls ex.2 = [CallGet key; CallUpdate svc])
  ∧ (∀ svc w1,
       Get key w = (Ok svc, w1) →
       ownerLabelsExist svc contour = true →
       calls del.2 = [CallGet key; CallDelete svc])
  ∧ ((∀ current w1, Get key w = (Ok current, w1) → keyOf current = key) →
     (∀ current w1 svc,
        Get key w = (Ok current, w1) →
        serviceChanged kind current (desired contour kind) = (svc, true) →
        keyOf svc = keyOf current) →
     Forall (λ c, callKey c = key) (calls ex.2)
     ∧ Forall (λ c, callKey c = key) (calls del.2))
  ∧ keyOf (desired contour kind) = key
  ∧ svc_Namespace (desired contour kind) = contour_Spec_Namespace_Name contour
  ∧ svc_Labels (desired contour kind) !! OwningContourNsLabel
    = Some (contour_Namespace contour)
  ∧ (contour_Namespace contour ≠ contour_Spec_Namespace_Name contour →
     svc_Labels (desired contour kind) !! OwningContourNsLabel
     ≠ Some (svc_Namespace (desired contour kind))).
Proof.
  intros Hne key ex del. subst key ex del.
  assert (Hlabel := ownerLabels_Ns contour Hne).
  rewrite desired_Labels, desired_Namespace, desired_key.
  change {| types.Namespace := contour_Spec_Namespace_Name contour;
            types.Name := svcName kind |} with (svcKey contour kind).
  rewrite exists_trace, deleted_trace.
  split; [done|]. split; [done|].
  split; [|split; [|split; [|split; [|split]]]].
  - intros obj.
    destruct (Get (svcKey contour kind) w) as [[current | err] w1].
    + destruct (ownerLabelsExist current contour);
        [destruct (serviceChanged kind current (desired contour kind)) as [svc []]|];
        rewrite ?elem_of_cons, ?elem_of_nil; intros Hin;
        repeat (destruct Hin as [Hin | Hin]); done.
    + destruct (IsNotFound err);
        rewrite ?elem_of_cons, ?elem_of_nil; intros Hin;
        repeat (destruct Hin as [Hin | Hin]); try done. by injection Hin as ->.
  - intros err w1 -> ->. reflexivity.
  - intros current w1 svc -> -> ->. reflexivity.
  - intros svc w1 -> ->. reflexivity.
  - intros Hstore Hdetector.
    destruct (Get (svcKey contour kind) w) as [[current | err] w1].
    + pose proof (Hstore current w1 eq_refl) as Hcur.
      destruct (ownerLabelsExist current contour).
      * destruct (serviceChanged kind current (desired contour kind))
          as [svc []] eqn:Hch.
        -- pose proof (Hdetector current w1 svc eq_refl Hch) as Hsvc.
           split; repeat constructor; cbn; congruence.
        -- split; repeat constructor; cbn; congruence.
      * split; repeat constructor.
    + destruct (IsNotFound err); split; repeat constructor.
      cbn. apply desired_key.
  - repeat split; try done. intros Hdiff. rewrite Hlabel. congruence.
Qed.

(** C7.  The desired service depends on the parent through its name, its
    namespace and the namespace it selects only: two parents that agree on
    the three have the same desired service.  Its labels hold the parent's
    name under the owning-name key and the parent's namespace under the
    owning-namespace key (the two keys being distinct, as the map literal of
    the Go code requires). *)
Theorem desired_is_a_function_of_identity contour kind :
  (∀ contour',
     contour_Name contour = contour_Name contour' →
     contour_Namespace contour = contour_Namespace contour' →
     contour_Spec_Namespace_Name contour = contour_Spec_Namespace_Name contour' →
     desired contour kind = desired contour' kind)
  ∧ (OwningContourNameLabel ≠ OwningContourNsLabel →
     svc_Labels (desired contour kind) !! OwningContourNameLabel
     = Some (contour_Name contour)
     ∧ svc_Labels (desired contour kind) !! OwningContourNsLabel
       = Some (contour_Namespace contour)).
Proof.
  split.
  - intros contour' Hname Hns Hsel.
    destruct kind; cbn; unfold DesiredContourService, DesiredEnvoyService, ownerLabels;
      by rewrite Hname, Hns, Hsel.
  - intros Hne. rewrite desired_Labels. split.
    + apply ownerLabels_Name.
    + by apply ownerLabels_Ns.
Qed.

(** C8.  The desired Contour service is of type ClusterIP, has the one
    port [xds] on the xDS port, selects the pods of the Contour deployment
    and has no annotation.  The desired Envoy service is of type
    LoadBalancer, has the two ports [http] and [https], selects the pods of
    the Envoy daemon set, carries the AWS backend protocol annotation with
    value [tcp], and has the external traffic policy [Local]. *)
Theorem desired_services_shape contour :
  let internal := DesiredContourService contour in
  let external := DesiredEnvoyService contour in
  (corev1.Type_ (corev1.Spec internal) = "ClusterIP"
   ∧ map (λ p, (corev1.Name p, corev1.Port p, corev1.Protocol_ p,
                intstr.IntVal (corev1.TargetPort p)))
         (corev1.Ports (corev1.Spec internal))
     = [("xds", int32 xdsPort, "TCP", int32 xdsPort)]
   ∧ corev1.Selector (corev1.Spec internal)
     = metav1.MatchLabels contourDeploymentPodSelector
   ∧ svc_Annotations internal = ∅)
  ∧ (corev1.Type_ (corev1.Spec external) = "LoadBalancer"
     ∧ map (λ p, (corev1.Name p, corev1.Port p, corev1.Protocol_ p,
                  intstr.IntVal (corev1.TargetPort p)))
           (corev1.Ports (corev1.Spec external))
       = [("http", int32 httpPort, "TCP", int32 httpPort);
          ("https", int32 httpsPort, "TCP", int32 httpsPort)]
     ∧ corev1.Selector (corev1.Spec external)
       = metav1.MatchLabels envoyDaemonSetPodSelector
     ∧ svc_Annotations external
       = {[ "service.beta.kubernetes.io/aws-load-balancer-backend-protocol" := "tcp" ]}
     ∧ corev1.ExternalTrafficPolicy (corev1.Spec external) = "Local").
Proof. cbn. by repeat split. Qed.
End Properties.

(** ** Two runs of EnsureExists on the store in memory *)

Lemma hasKey_keyOf (obj : Service) : hasKey (keyOf obj) obj = true.
Proof. unfold hasKey, keyOf. cbn. by rewrite !String.eqb_refl. Qed.

Lemma hasKey_true (key : types.NamespacedName) (obj : Service) :
  hasKey key obj = true → keyOf obj = key.
Proof.
  unfold hasKey, keyOf. destruct key as [ns name]. cbn.
  intros [Hns Hname]%andb_prop.
  apply String.eqb_eq in Hns, Hname. by subst.
Qed.

Lemma find_None_existsb {A} (p : A → bool) (l : list A) :
  find p l = None → existsb p l = false.
Proof.
  induction l as [|x l IH]; [done|]. cbn. destruct (p x); [done|]. exact IH.
Qed.

Lemma find_Some_existsb {A} (p : A → bool) (l : list A) (x : A) :
  find p l = Some x → existsb p l = true ∧ p x = true.
Proof.
  induction l as [|y l IH]; [done|]. cbn. destruct (p y) eqn:Hy.
  - intros [= ->]. done.
  - exact IH.
Qed.

Lemma find_replace (key : types.NamespacedName) (s : list Service) (cur new : Service) :
  find (hasKey key) s = Some cur →
  keyOf new = key →
  find (hasKey key) (map (λ o, if hasKey (keyOf new) o then new else o) s) = Some new.
Proof.
  intros Hfind <-. induction s as [|o s IH]; [done|]. cbn in *.
  destruct (hasKey (keyOf new) o) eqn:Ho.
  - by rewrite hasKey_keyOf.
  - rewrite Ho. by apply IH.
Qed.

Section Idempotence.
Context {consts : Consts}.
Hypothesis Hlabels : OwningContourNameLabel ≠ OwningContourNsLabel.

Lemma reconcileField_fst {A} `{EqDecision A} (get : corev1.ServiceSpec → A) set d acc :
  (∀ spec v, get (set spec v) = v) →
  get (reconcileField get set d acc).1 = get d.
Proof. intros Hset. unfold reconcileField. case_decide; [done|]. cbn. apply Hset. Qed.

Lemma reconcileField_other {A B} `{EqDecision A} (get : corev1.ServiceSpec → A) set
    (get' : corev1.ServiceSpec → B) d acc :
  (∀ spec v, get' (set spec v) = get' spec) →
  get' (reconcileField get set d acc).1 = get' acc.1.
Proof. intros Hset. unfold reconcileField. case_decide; [done|]. cbn. apply Hset. Qed.

Lemma reconcileField_same {A} `{EqDecision A} (get : corev1.ServiceSpec → A) set d acc :
  get acc.1 = get d → reconcileField get set d acc = acc.
Proof. intros Heq. unfold reconcileField. by rewrite decide_True. Qed.

Lemma reconcileAnnotation_fst key d acc :
  (reconcileAnnotation key d acc).1 !! key = d !! key.
Proof.
  unfold reconcileAnnotation. case_decide; [done|]. cbn.
  destruct (d !! key); [by rewrite lookup_insert_eq | by rewrite lookup_delete_eq].
Qed.

Lemma reconcileAnnotation_same key d acc :
  acc.1 !! key = d !! key → reconcileAnnotation key d acc = acc.
Proof. intros Heq. unfold reconcileAnnotation. by rewrite decide_True. Qed.

Ltac field_of_chain :=
  repeat first [ rewrite reconcileField_fst by done
               | rewrite reconcileField_other by done ];
  try done.

(** The service that a detector returns agrees with the desired one on
    every managed field, so that the detector reports no change on it. *)
Lemma spec_ClusterIPServiceChanged_twice (current des : Service) :
  (spec_ClusterIPServiceChanged (spec_ClusterIPServiceChanged current des).1 des).2
  = false.
Proof.
  unfold spec_ClusterIPServiceChanged at 2.
  destruct (reconcileField corev1.SessionAffinity _ _ _) as [spec changed] eqn:E.
  apply (f_equal fst) in E. cbn [fst] in E.
  assert (Hports : corev1.Ports spec = corev1.Ports (corev1.Spec des))
    by (rewrite <- E; field_of_chain).
  assert (Hsel : corev1.Selector spec = corev1.Selector (corev1.Spec des))
    by (rewrite <- E; field_of_chain).
  assert (Haff : corev1.SessionAffinity spec = corev1.SessionAffinity (corev1.Spec des))
    by (rewrite <- E; field_of_chain).
  unfold spec_ClusterIPServiceChanged. cbn [fst corev1.Spec].
  rewrite (reconcileField_same corev1.Ports) by done.
  rewrite (reconcileField_same corev1.Selector) by done.
  by rewrite (reconcileField_same corev1.SessionAffinity).
Qed.

Lemma spec_LoadBalancerServiceChanged_twice (current des : Service) :
  (spec_LoadBalancerServiceChanged (spec_LoadBalancerServiceChanged current des).1 des).2
  = false.
Proof.
  unfold spec_LoadBalancerServiceChanged at 2.
  destruct (reconcileField corev1.ExternalTrafficPolicy _ _ _) as [spec changed] eqn:E.
  apply (f_equal fst) in E. cbn [fst] in E.
  destruct (reconcileAnnotation _ _ _) as [annotations changed'] eqn:E'.
  apply (f_equal fst) in E'. cbn [fst] in E'.
  assert (Hports : corev1.Ports spec = corev1.Ports (corev1.Spec des))
    by (rewrite <- E; field_of_chain).
  assert (Hsel : corev1.Selector spec = corev1.Selector (corev1.Spec des))
    by (rewrite <- E; field_of_chain).
  assert (Haff : corev1.SessionAffinity spec = corev1.SessionAffinity (corev1.Spec des))
    by (rewrite <- E; field_of_chain).
  assert (Htype : corev1.Type_ spec = corev1.Type_ (corev1.Spec des))
    by (rewrite <- E; field_of_chain).
  assert (Hpol : corev1.ExternalTrafficPolicy spec
                 = corev1.ExternalTrafficPolicy (corev1.Spec des))
    by (rewrite <- E; field_of_chain).
  assert (Hann : annotations !! awsLbBackendProtoAnnotation
                 = svc_Annotations des !! awsLbBackendProtoAnnotation)
    by (rewrite <- E'; apply reconcileAnnotation_fst).
  unfold spec_LoadBalancerServiceChanged, svc_Annotations at 1.
  cbn [fst corev1.Spec corev1.ObjectMeta set_Annotations metav1.Annotations].
  rewrite (reconcileField_same corev1.Ports) by done.
  rewrite (reconcileField_same corev1.Selector) by done.
  rewrite (reconcileField_same corev1.SessionAffinity) by done.
  rewrite (reconcileField_same corev1.Type_) by done.
  rewrite (reconcileField_same corev1.ExternalTrafficPolicy) by done.
  by rewrite reconcileAnnotation_same.
Qed.

Lemma spec_changed_twice kind (current des : Service) :
  (serviceChanged (helpers := specHelpers) kind
     (serviceChanged (helpers := specHelpers) kind current des).1 des).2 = false.
Proof.
  destruct kind;
    [apply spec_ClusterIPServiceChanged_twice
    | apply spec_LoadBalancerServiceChanged_twice].
Qed.

(** A service is unchanged with respect to itself. *)
Lemma spec_changed_refl kind (des : Service) :
  (serviceChanged (helpers := specHelpers) kind des des).2 = false.
Proof.
  destruct kind; cbn [serviceChanged specHelpers ClusterIPServiceChanged
                        LoadBalancerServiceChanged];
    unfold spec_ClusterIPServiceChanged, spec_LoadBalancerServiceChanged.
  - rewrite (reconcileField_same corev1.Ports) by done.
    rewrite (reconcileField_same corev1.Selector) by done.
    by rewrite (reconcileField_same corev1.SessionAffinity).
  - rewrite (reconcileField_same corev1.Ports) by done.
    rewrite (reconcileField_same corev1.Selector) by done.
    rewrite (reconcileField_same corev1.SessionAffinity) by done.
    rewrite (reconcileField_same corev1.Type_) by done.
    rewrite (reconcileField_same corev1.ExternalTrafficPolicy) by done.
    by rewrite reconcileAnnotation_same.
Qed.

(** The detectors keep the namespace, the name and the labels. *)
Lemma spec_changed_meta kind (current des : Service) :
  let svc := (serviceChanged (helpers := specHelpers) kind current des).1 in
  keyOf svc = keyOf current ∧ svc_Labels svc = svc_Labels current.
Proof.
  destruct kind; cbn [serviceChanged specHelpers ClusterIPServiceChanged
                        LoadBalancerServiceChanged];
    unfold spec_ClusterIPServiceChanged, spec_LoadBalancerServiceChanged.
  - by destruct (reconcileField _ _ _ _).
  - destruct (reconcileField corev1.ExternalTrafficPolicy _ _ _).
    by destruct (reconcileAnnotation _ _ _).
Qed.

Lemma spec_owner_desired contour kind :
  spec_ownerLabelsExist (desired contour kind) contour = true.
Proof.
  unfold spec_ownerLabelsExist. rewrite desired_Labels.
  rewrite ownerLabels_Name, ownerLabels_Ns by done.
  by rewrite !bool_decide_eq_true_2.
Qed.

(** What the first run leaves in the store is what the second run reads,
    and the second run has nothing to do. *)
Lemma mem_ensure_exists_twice contour kind (s : list Service) :
  let first := run (EnsureExists (client := memClient) (helpers := specHelpers)
                      contour kind) s in
  let second := run (EnsureExists (client := memClient) (helpers := specHelpers)
                       contour kind) (world first.2) in
  first.1 = None
  ∧ second.1 = None
  ∧ calls second.2 = [CallGet (svcKey contour kind)]
  ∧ world second.2 = world first.2.
Proof.
  destruct (find (hasKey (svcKey contour kind)) s) as [current|] eqn:Hfind.
  - (* the service is there *)
    apply find_Some_existsb in Hfind as Hex. destruct Hex as [Hex Hkey].
    apply hasKey_true in Hkey.
    assert (Hget : Get (Client := memClient) (svcKey contour kind) s = (Ok current, s))
      by (cbn; unfold mem_Get; by rewrite Hfind).
    destruct (spec_ownerLabelsExist current contour) eqn:Hown.
    + destruct (serviceChanged (helpers := specHelpers) kind current
                  (desired contour kind)) as [svc changed] eqn:Hch.
      destruct changed.
      * (* owned and changed: the first run updates *)
        destruct (spec_changed_meta kind current (desired contour kind))
          as [Hk Hl]. rewrite Hch in Hk, Hl. cbn [fst] in Hk, Hl.
        assert (Hupd : Update (Client := memClient) svc s
                       = (None, map (λ o, if hasKey (keyOf svc) o then svc else o) s)).
        { cbn. unfold mem_Update. by rewrite Hk, Hkey, Hex. }
        destruct (exists_changed (client := memClient) (helpers := specHelpers)
                    contour kind s current s svc _ _ Hget Hown Hch Hupd)
          as (H1 & _ & Hw).
        intros first second. subst first second. rewrite Hw, H1.
        assert (Hget2 : Get (Client := memClient) (svcKey contour kind)
                          (map (λ o, if hasKey (keyOf svc) o then svc else o) s)
                        = (Ok svc, map (λ o, if hasKey (keyOf svc) o then svc else o) s)).
        { cbn. unfold mem_Get.
          rewrite (find_replace (svcKey contour kind) s current svc Hfind); [done|congruence]. }
        assert (Hch2 : serviceChanged (helpers := specHelpers) kind svc
                         (desired contour kind)
                       = ((serviceChanged (helpers := specHelpers) kind svc
                             (desired contour kind)).1, false)).
        { pose proof (spec_changed_twice kind current (desired contour kind)) as H2.
          rewrite Hch in H2. cbn [fst] in H2.
          by destruct (serviceChanged kind svc (desired contour kind)) as [? []]. }
        destruct (exists_unchanged (client := memClient) (helpers := specHelpers)
                    contour kind _ svc _ _ Hget2 Hch2) as (-> & -> & ->).
        done.
      * (* owned and unchanged: neither run changes the store *)
        destruct (exists_unchanged (client := memClient) (helpers := specHelpers)
                    contour kind s current s svc Hget Hch) as (H1 & H2 & Hw).
        intros first second. subst first second. by rewrite Hw, H1, H2.
    + (* not owned: both runs skip *)
      destruct (exists_unowned (client := memClient) (helpers := specHelpers)
                  contour kind s current s Hget Hown) as (H1 & H2 & Hw).
      intros first second. subst first second. by rewrite Hw, H1, H2.
  - (* the service is absent: the first run creates it *)
    apply find_None_existsb in Hfind as Hex.
    assert (Hget : Get (Client := memClient) (svcKey contour kind) s
                   = (Err (NewNotFound (types.Name (svcKey contour kind))), s))
      by (cbn; unfold mem_Get; by rewrite Hfind).
    assert (Hcreate : Create (Client := memClient) (desired contour kind) s
                      = (None, desired contour kind :: s)).
    { cbn. unfold mem_Create. by rewrite desired_key, Hex. }
    destruct (exists_absent (client := memClient) (helpers := specHelpers)
                contour kind s _ s _ _ Hget eq_refl Hcreate) as (H1 & _ & Hw).
    intros first second. subst first second. rewrite Hw, H1.
    assert (Hget2 : Get (Client := memClient) (svcKey contour kind) (desired contour kind :: s)
                    = (Ok (desired contour kind), desired contour kind :: s)).
    { cbn. unfold mem_Get. cbn.
      by rewrite <- (desired_key contour kind), hasKey_keyOf. }
    assert (Hch2 : serviceChanged (helpers := specHelpers) kind
                     (desired contour kind) (desired contour kind)
                   = ((serviceChanged (helpers := specHelpers) kind
                         (desired contour kind) (desired contour kind)).1, false)).
    { pose proof (spec_changed_refl kind (desired contour kind)) as H2.
      by destruct (serviceChanged kind (desired contour kind) (desired contour kind))
        as [? []]. }
    destruct (exists_unchanged (client := memClient) (helpers := specHelpers)
                contour kind _ _ _ _ Hget2 Hch2) as (-> & -> & ->).
    done.
Qed.
End Idempotence.

(** C1.  For every client and every change detector: when the get returns
    a service on which the detector of the kind reports no change,
    EnsureExists makes the get and no other call, so no update.  And on the
    store in memory, with the owner label check and the detectors of the
    spec: after a first run of EnsureExists, which succeeds, a second run
    from the store as the first one left it makes the get and no other
    call, so neither a create nor an update, and leaves the store as it
    is. *)
Theorem ensure_exists_is_idempotent :
  (∀ (W : Type) (client : Client W) (consts : Consts) (helpers : Helpers)
     contour kind (w : W) current w1 svc,
     Get (svcKey contour kind) w = (Ok current, w1) →
     serviceChanged kind current (desired contour kind) = (svc, false) →
     let out := run (EnsureExists contour kind) w in
     out.1 = None
     ∧ calls out.2 = [CallGet (svcKey contour kind)]
     ∧ count isUpdate (calls out.2) = 0%nat
     ∧ world out.2 = w1)
  ∧ (∀ (consts : Consts) contour kind (s : list Service),
       let first := run (EnsureExists (client := memClient) (helpers := specHelpers)
                           contour kind) s in
       let second := run (EnsureExists (client := memClient) (helpers := specHelpers)
                            contour kind) (world first.2) in
       first.1 = None
       ∧ second.1 = None
       ∧ calls second.2 = [CallGet (svcKey contour kind)]
       ∧ count isCreate (calls second.2) = 0%nat
       ∧ count isUpdate (calls second.2) = 0%nat
       ∧ world second.2 = world first.2).
Proof.
  split.
  - intros W client consts helpers contour kind w current w1 svc Hget Hch.
    destruct (exists_unchanged contour kind w current w1 svc Hget Hch)
      as (H1 & H2 & H3).
    cbv zeta. by rewrite H1, H2, H3.
  - intros consts contour kind s.
    destruct (mem_ensure_exists_twice contour kind s) as (H1 & H2 & H3 & H4).
    cbv zeta. by rewrite H1, H2, H3, H4.
Qed.

(** * The properties on sample inputs *)

(** C6 as it is stated does not hold for EnsureDeleted: against a store
    that cannot be reached, the error of the get is not NotFound, and
    EnsureDeleted returns that very error, whose message names neither the
    service nor the operation; it is not a wrapped error. *)
Lemma ensure_deleted_returns_the_bare_error :
  let out := run (sampleEnsureDeleted scriptedClient Internal) unreachable in
  IsNotFound (errorString "connection refused") = false
  ∧ out.1 = Some (errorString "connection refused")
  ∧ (∀ e, out.1 = Some e → Error e = "connection refused")
  ∧ ¬ (∃ msg err, out.1 = Some (wrapError msg err)).
Proof.
  cbv zeta. split; [reflexivity|]. split; [reflexivity|]. split.
  - by intros e [= <-].
  - by intros (msg & err & [=]).
Qed.

(** C1 on the sample parent: a store that holds the desired Contour service
    gets no update; a store that holds the stale service gets one update
    from the first run and nothing from the second. *)
Lemma ensure_exists_is_idempotent_witness :
  (let out := run (sampleEnsureExists memClient Internal)
                  [DesiredContourService (consts := sampleConsts) sampleContour] in
   out.1 = None ∧ count isUpdate (calls out.2) = 0%nat)
  ∧ (let first := run (sampleEnsureExists memClient Internal) [staleService] in
     let second := run (sampleEnsureExists memClient Internal) (world first.2) in
     count isUpdate (calls first.2) = 1%nat
     ∧ count isCreate (calls second.2) = 0%nat
     ∧ count isUpdate (calls second.2) = 0%nat).
Proof.
  destruct ensure_exists_is_idempotent as [Hone Htwo]. split.
  - cbv zeta.
    edestruct (Hone _ memClient sampleConsts (specHelpers (consts := sampleConsts))
                 sampleContour Internal
                 [DesiredContourService (consts := sampleConsts) sampleContour])
      as (H1 & _ & H3 & _);
      [vm_compute; reflexivity | vm_compute; reflexivity |].
    split; [exact H1 | exact H3].
  - cbv zeta.
    destruct (Htwo sampleConsts sampleContour Internal [staleService])
      as (_ & _ & _ & H4 & H5 & _).
    split; [vm_compute; reflexivity|]. split; [exact H4 | exact H5].
Defined.

(** C2 on the sample parent and the empty store: the Envoy service is
    created in [projectcontour]. *)
Lemma ensure_exists_creates_when_absent_witness :
  let out := run (sampleEnsureExists memClient External) [] in
  out.1 = None
  ∧ calls out.2
    = [CallGet {| types.Namespace := "projectcontour"; types.Name := "envoy" |};
       CallCreate (DesiredEnvoyService (consts := sampleConsts) sampleContour)].
Proof.
  cbv zeta.
  destruct (ensure_exists_creates_when_absent (client := memClient)
              (consts := sampleConsts)
              (helpers := specHelpers (consts := sampleConsts))
              sampleContour External [] (NewNotFound "envoy") [] None
              [DesiredEnvoyService (consts := sampleConsts) sampleContour])
    as (H1 & _ & _ & _ & H5); [reflexivity | reflexivity | reflexivity |].
  split; [exact (H5 eq_refl) | exact H1].
Defined.

(** C3 on the sample parent and a store that holds the foreign service: it
    is left as it is, though its ports and selector differ from the desired
    ones. *)
Lemma ensure_exists_skips_unowned_witness :
  let out := run (sampleEnsureExists memClient Internal) [foreignService] in
  out.1 = None ∧ count isUpdate (calls out.2) = 0%nat ∧ world out.2 = [foreignService].
Proof.
  cbv zeta.
  destruct (ensure_exists_skips_unowned (client := memClient)
              (consts := sampleConsts)
              (helpers := specHelpers (consts := sampleConsts))
              sampleContour Internal [foreignService] foreignService [foreignService])
    as (H1 & _ & H3 & H4); [reflexivity | vm_compute; reflexivity |].
  split; [exact H1 | split; [exact H3 | exact H4]].
Defined.

(** C4 on the sample parent: the foreign service is not deleted; the stale
    service, which is deleted, is the one that the get returns and it
    carries the labels of the parent. *)
Lemma ensure_deleted_gated_by_ownership_witness :
  (let out := run (sampleEnsureDeleted memClient Internal) [foreignService] in
   out.1 = None
   ∧ count isDelete (calls out.2) = 0%nat
   ∧ world out.2 = [foreignService])
  ∧ (∃ w1, Get (Client := memClient) (svcKey sampleContour Internal) [staleService]
           = (Ok staleService, w1)
           ∧ spec_ownerLabelsExist (consts := sampleConsts) staleService sampleContour
             = true).
Proof.
  split.
  - cbv zeta.
    destruct (ensure_deleted_gated_by_ownership (client := memClient)
                (helpers := specHelpers (consts := sampleConsts))
                sampleContour Internal [foreignService]) as [Hskip _].
    destruct (Hskip foreignService [foreignService]) as (H1 & _ & H3 & H4);
      [reflexivity | vm_compute; reflexivity |].
    split; [exact H1 | split; [exact H3 | exact H4]].
  - destruct (ensure_deleted_gated_by_ownership (client := memClient)
                (helpers := specHelpers (consts := sampleConsts))
                sampleContour Internal [staleService]) as [_ Hgate].
    apply (Hgate staleService). vm_compute. right. left.
Defined.

(** C5 on the sample parent: nothing to delete in the empty store; and a
    delete that finds the service gone is a success. *)
Lemma ensure_deleted_tolerates_not_found_witness :
  (let out := run (sampleEnsureDeleted memClient External) [] in
   out.1 = None ∧ count isDelete (calls out.2) = 0%nat)
  ∧ (let out := run (sampleEnsureDeleted scriptedClient Internal) deleteRaced in
     out.1 = None
     ∧ calls out.2 = [CallGet (svcKey sampleContour Internal); CallDelete staleService]).
Proof.
  split; cbv zeta.
  - destruct (ensure_deleted_tolerates_not_found (client := memClient)
                (helpers := specHelpers (consts := sampleConsts))
                sampleContour External []) as [Habsent _].
    destruct (Habsent (NewNotFound "envoy") []) as (H1 & _ & H3);
      [reflexivity | reflexivity |].
    split; [exact H1 | exact H3].
  - destruct (ensure_deleted_tolerates_not_found (client := scriptedClient)
                (helpers := specHelpers (consts := sampleConsts))
                sampleContour Internal deleteRaced) as [_ Hraced].
    apply (Hraced staleService deleteRaced (NewNotFound "contour") deleteRaced);
      [reflexivity | vm_compute; reflexivity | reflexivity | reflexivity].
Defined.

(** C6, amended, on the sample parent: the errors that EnsureExists and
    EnsureDeleted return against stores that fail at the get, at the create,
    at the update and at the delete. *)
Lemma store_errors_reach_the_caller_witness :
  (run (sampleEnsureExists scriptedClient Internal) unreachable).1
  = Some (failedTo "get" "projectcontour" "contour" (errorString "connection refused"))
  ∧ (run (sampleEnsureDeleted scriptedClient Internal) unreachable).1
    = Some (errorString "connection refused")
  ∧ (run (sampleEnsureExists scriptedClient Internal) createForbidden).1
    = Some (failedTo "create" "projectcontour" "contour"
              (StatusError "Forbidden" "services is forbidden"))
  ∧ (run (sampleEnsureExists scriptedClient Internal) updateConflict).1
    = Some (failedTo "update" "projectcontour" "contour"
              (failedTo "update" "projectcontour" "contour"
                 (StatusError "Conflict" "the object has been modified")))
  ∧ (run (sampleEnsureDeleted scriptedClient Internal) deleteForbidden).1
    = Some (StatusError "Forbidden" "services is forbidden").
Proof.
  split; [|split; [|split; [|split]]].
  - destruct (store_errors_reach_the_caller (client := scriptedClient)
                (consts := sampleConsts)
                (helpers := specHelpers (consts := sampleConsts))
                sampleContour Internal unreachable) as (Hget & _).
    apply (Hget (errorString "connection refused") unreachable); reflexivity.
  - destruct (store_errors_reach_the_caller (client := scriptedClient)
                (consts := sampleConsts)
                (helpers := specHelpers (consts := sampleConsts))
                sampleContour Internal unreachable) as (Hget & _).
    apply (Hget (errorString "connection refused") unreachable); reflexivity.
  - destruct (store_errors_reach_the_caller (client := scriptedClient)
                (consts := sampleConsts)
                (helpers := specHelpers (consts := sampleConsts))
                sampleContour Internal createForbidden) as (_ & Hcreate & _).
    apply (Hcreate (NewNotFound "contour") createForbidden _ createForbidden);
      reflexivity.
  - destruct (store_errors_reach_the_caller (client := scriptedClient)
                (consts := sampleConsts)
                (helpers := specHelpers (consts := sampleConsts))
                sampleContour Internal updateConflict) as (_ & _ & Hupdate & _).
    apply (Hupdate staleService updateConflict
             (spec_ClusterIPServiceChanged staleService
                (DesiredContourService (consts := sampleConsts) sampleContour)).1
             _ updateConflict);
      vm_compute; reflexivity.
  - destruct (store_errors_reach_the_caller (client := scriptedClient)
                (consts := sampleConsts)
                (helpers := specHelpers (consts := sampleConsts))
                sampleContour Internal deleteForbidden) as (_ & _ & _ & Hdelete).
    apply (Hdelete staleService deleteForbidden _ deleteForbidden);
      vm_compute; reflexivity.
Defined.

(** C7 on the sample parent and on the same parent relabelled. *)
Lemma desired_is_a_function_of_identity_witness :
  desired (consts := sampleConsts) sampleContour External
  = desired (consts := sampleConsts) relabelledContour External
  ∧ svc_Labels (desired (consts := sampleConsts) sampleContour External)
    !! "operator.projectcontour.io/owning-contour-name" = Some "sample"
  ∧ svc_Labels (desired (consts := sampleConsts) sampleContour External)
    !! "operator.projectcontour.io/owning-contour-namespace" = Some "default".
Proof.
  destruct (desired_is_a_function_of_identity (consts := sampleConsts)
              sampleContour External) as [Hsame Hlabels].
  split.
  - apply (Hsame relabelledContour); reflexivity.
  - apply Hlabels. vm_compute. discriminate.
Defined.

(** C9 on the sample parent: a store that cannot be reached is asked once;
    a refused create and a refused delete end the run with an error. *)
Lemma one_get_and_at_most_one_mutation_witness :
  (let ex := run (sampleEnsureExists scriptedClient Internal) unreachable in
   let del := run (sampleEnsureDeleted scriptedClient Internal) unreachable in
   (is_Some ex.1 ∧ calls ex.2 = [CallGet (svcKey sampleContour Internal)]
    ∧ world ex.2 = unreachable)
   ∧ (is_Some del.1 ∧ calls del.2 = [CallGet (svcKey sampleContour Internal)]
      ∧ world del.2 = unreachable))
  ∧ (let ex := run (sampleEnsureExists scriptedClient Internal) createForbidden in
     is_Some ex.1 ∧ world ex.2 = createForbidden)
  ∧ (let del := run (sampleEnsureDeleted scriptedClient Internal) deleteForbidden in
     is_Some del.1 ∧ world del.2 = deleteForbidden).
Proof.
  split; [|split]; cbv zeta.
  - destruct (one_get_and_at_most_one_mutation (client := scriptedClient)
                (consts := sampleConsts)
                (helpers := specHelpers (consts := sampleConsts))
                sampleContour Internal unreachable)
      as (_ & _ & _ & _ & _ & _ & Habort & _).
    apply (Habort (errorString "connection refused") unreachable); reflexivity.
  - destruct (one_get_and_at_most_one_mutation (client := scriptedClient)
                (consts := sampleConsts)
                (helpers := specHelpers (consts := sampleConsts))
                sampleContour Internal createForbidden)
      as (_ & _ & _ & _ & _ & _ & _ & Hlast).
    destruct (Hlast (Err (NewNotFound "contour")) createForbidden
                (CallCreate (DesiredContourService (consts := sampleConsts) sampleContour))
                (StatusError "Forbidden" "services is forbidden") createForbidden)
      as [Hex _]; [reflexivity | reflexivity |].
    apply Hex. reflexivity.
  - destruct (one_get_and_at_most_one_mutation (client := scriptedClient)
                (consts := sampleConsts)
                (helpers := specHelpers (consts := sampleConsts))
                sampleContour Internal deleteForbidden)
      as (_ & _ & _ & _ & _ & _ & _ & Hlast).
    destruct (Hlast (Ok staleService) deleteForbidden (CallDelete staleService)
                (StatusError "Forbidden" "services is forbidden") deleteForbidden)
      as [_ Hdel]; [reflexivity | reflexivity |].
    apply Hdel; vm_compute; reflexivity.
Defined.

(** C10 on the sample parent, which lives in [default] and selects
    [projectcontour]: the Contour service is created there on the empty
    store; on a store that holds the stale service the update and the
    delete address it there; and the label of the desired service says
    [default]. *)
Lemma children_live_in_the_selected_namespace_witness :
  let key := {| types.Namespace := "projectcontour"; types.Name := "contour" |} in
  calls (run (sampleEnsureExists memClient Internal) []).2
  = [CallGet key;
     CallCreate (DesiredContourService (consts := sampleConsts) sampleContour)]
  ∧ calls (run (sampleEnsureExists memClient Internal) [staleService]).2
    = [CallGet key;
       CallUpdate (spec_ClusterIPServiceChanged staleService
                     (DesiredContourService (consts := sampleConsts)
                        sampleContour)).1]
  ∧ calls (run (sampleEnsureDeleted memClient Internal) [staleService]).2
    = [CallGet key; CallDelete staleService]
  ∧ Forall (λ c, callKey c = key)
           (calls (run (sampleEnsureExists memClient Internal) [staleService]).2)
  ∧ Forall (λ c, callKey c = key)
           (calls (run (sampleEnsureDeleted memClient Internal) [staleService]).2)
  ∧ svc_Labels (desired (consts := sampleConsts) sampleContour Internal)
    !! "operator.projectcontour.io/owning-contour-namespace" = Some "default"
  ∧ svc_Labels (desired (consts := sampleConsts) sampleContour Internal)
    !! "operator.projectcontour.io/owning-contour-namespace"
    ≠ Some (svc_Namespace (desired (consts := sampleConsts) sampleContour Internal)).
Proof.
  cbv zeta.
  destruct (children_live_in_the_selected_namespace (client := memClient)
              (consts := sampleConsts)
              (helpers := specHelpers (consts := sampleConsts))
              sampleContour Internal [])
    as (_ & _ & _ & Hcreate & _ & _ & _ & _ & _ & Hlabel & Hdiffer);
    [vm_compute; discriminate|].
  destruct (children_live_in_the_selected_namespace (client := memClient)
              (consts := sampleConsts)
              (helpers := specHelpers (consts := sampleConsts))
              sampleContour Internal [staleService])
    as (_ & _ & _ & _ & Hupdate & Hdelete & Hkeys & _);
    [vm_compute; discriminate|].
  split; [|split; [|split; [|split; [|split; [|split]]]]].
  - apply (Hcreate (NewNotFound "contour") []); reflexivity.
  - apply (Hupdate staleService [staleService]); vm_compute; reflexivity.
  - apply (Hdelete staleService [staleService]); vm_compute; reflexivity.
  - apply Hkeys.
    + intros current w1 Hget. vm_compute in Hget. injection Hget as <- _.
      vm_compute. reflexivity.
    + intros current w1 svc Hget Hch. vm_compute in Hget. injection Hget as <- _.
      vm_compute in Hch. injection Hch as <-. vm_compute. reflexivity.
  - apply Hkeys.
    + intros current w1 Hget. vm_compute in Hget. injection Hget as <- _.
      vm_compute. reflexivity.
    + intros current w1 svc Hget Hch. vm_compute in Hget. injection Hget as <- _.
      vm_compute in Hch. injection Hch as <-. vm_compute. reflexivity.
  - exact Hlabel.
  - apply Hdiffer. vm_compute. discriminate.
Defined.

(** * Further properties of the methods *)

Section Further.
Context {W : Type} {client : Client W} {consts : Consts} {helpers : Helpers}.

Implicit Types (contour : Contour) (kind : ServiceKind) (w : W).

(** X1.  When the service read is owned and the detector of the kind
    reports a change, EnsureExists makes the get and one update, of the
    service that the detector returned; it makes no create, leaves the world
    as the update left it, and succeeds exactly when the update does. *)
Theorem ensure_exists_updates_when_changed contour kind w current w1 svc r w2 :
  Get (svcKey contour kind) w = (Ok current, w1) →
  ownerLabelsExist current contour = true →
  serviceChanged kind current (desired contour kind) = (svc, true) →
  Update svc w1 = (r, w2) →
  let out := run (EnsureExists contour kind) w in
  calls out.2 = [CallGet (svcKey contour kind); CallUpdate svc]
  ∧ count isUpdate (calls out.2) = 1%nat
  ∧ count isCreate (calls out.2) = 0%nat
  ∧ world out.2 = w2
  ∧ (out.1 = None ↔ r = None).
Proof.
  intros Hget Hown Hch Hupd.
  destruct (exists_changed contour kind w current w1 svc r w2 Hget Hown Hch Hupd)
    as (H1 & H2 & H3).
  cbv zeta. rewrite H1, H2, H3. repeat split; try done; by destruct r.
Qed.

(** X2.  The mutating calls of EnsureExists are gated.  A create in the
    trace is a create of the desired service and the get reported NotFound;
    an update in the trace is an update of the service that the detector
    returned with a change, for a service that the get returned and that
    passes the owner label check. *)
Theorem ensure_exists_mutations_are_gated contour kind w :
  let out := run (EnsureExists contour kind) w in
  (∀ obj,
     CallCreate obj ∈ calls out.2 →
     obj = desired contour kind
     ∧ ∃ err w1, Get (svcKey contour kind) w = (Err err, w1)
                 ∧ IsNotFound err = true)
  ∧ (∀ obj,
       CallUpdate obj ∈ calls out.2 →
       ∃ current w1,
         Get (svcKey contour kind) w = (Ok current, w1)
         ∧ ownerLabelsExist current contour = true
         ∧ serviceChanged kind current (desired contour kind) = (obj, true)).
Proof.
  split; intros obj.
  - destruct kind; unfold_methods; exec_cases; cbn;
      rewrite ?elem_of_cons, ?elem_of_nil; intros Hin;
      repeat (destruct Hin as [Hin | Hin]); try done;
      injection Hin as ->; eauto.
  - destruct kind; unfold_methods; exec_cases; cbn;
      rewrite ?elem_of_cons, ?elem_of_nil; intros Hin;
      repeat (destruct Hin as [Hin | Hin]); try done;
      injection Hin as ->; eauto.
Qed.

(** X3.  When the service read is owned, EnsureDeleted makes the get and
    one delete, of the service read.  When the delete succeeds the run
    succeeds and logs the deletion; when the delete fails with an error
    that is not NotFound the run returns that error and logs nothing. *)
Theorem ensure_deleted_deletes_owned contour kind w svc w1 r w2 :
  Get (svcKey contour kind) w = (Ok svc, w1) →
  ownerLabelsExist svc contour = true →
  Delete svc w1 = (r, w2) →
  let out := run (EnsureDeleted contour kind) w in
  calls out.2 = [CallGet (svcKey contour kind); CallDelete svc]
  ∧ count isDelete (calls out.2) = 1%nat
  ∧ world out.2 = w2
  ∧ (r = None → out.1 = None ∧ logs out.2 = [logLine "deleted service" svc])
  ∧ (∀ e, r = Some e → IsNotFound e = false →
          out.1 = Some e ∧ logs out.2 = []).
Proof.
  intros Hget Hown Hdel.
  destruct kind; unfold_methods; exec;
    (destruct r as [e|]; [destruct (IsNotFound e) eqn:Hnf|]); cbn;
    repeat split; try done; intros; simplify_eq; congruence.
Qed.

(** X4.  An error that EnsureDeleted returns is an error that the store
    returned, to the get or to the delete of the service read, and it is
    never a NotFound error. *)
Theorem ensure_deleted_error_is_a_store_error contour kind w e :
  (run (EnsureDeleted contour kind) w).1 = Some e →
  IsNotFound e = false
  ∧ ((∃ w1, Get (svcKey contour kind) w = (Err e, w1))
     ∨ (∃ svc w1 w2, Get (svcKey contour kind) w = (Ok svc, w1)
                     ∧ ownerLabelsExist svc contour = true
                     ∧ Delete svc w1 = (Some e, w2))).
Proof.
  destruct kind; unfold_methods; exec_cases; cbn; intros Hres; simplify_eq;
    try congruence; (split; [reflexivity|]);
    first [ left; eexists; reflexivity
          | right; do 3 eexists; split_and!; first [reflexivity | eassumption] ].
Qed.

(** X5.  An error that EnsureExists returns wraps an error that the store
    returned: the error of the get (which is then not NotFound) or of the
    create, wrapped once, or the error of the update, wrapped twice. *)
Theorem ensure_exists_error_wraps_a_store_error contour kind w e :
  (run (EnsureExists contour kind) w).1 = Some e →
  (∃ err w1 msg,
     Get (svcKey contour kind) w = (Err err, w1)
     ∧ IsNotFound err = false ∧ e = wrapError msg err)
  ∨ (∃ err0 w1 err w2 msg,
       Get (svcKey contour kind) w = (Err err0, w1)
       ∧ Create (desired contour kind) w1 = (Some err, w2)
       ∧ e = wrapError msg err)
  ∨ (∃ current w1 svc err w2 msg msg',
       Get (svcKey contour kind) w = (Ok current, w1)
       ∧ Update svc w1 = (Some err, w2)
       ∧ e = wrapError msg (wrapError msg' err)).
Proof.
  destruct kind; unfold_methods; exec_cases; cbn; intros Hres; simplify_eq;
    unfold Errorf; try congruence;
    first [ left; do 3 eexists; split_and!; first [reflexivity | eassumption]
          | right; left; do 5 eexists; split_and!; first [reflexivity | eassumption]
          | right; right; do 7 eexists; split_and!;
            first [reflexivity | eassumption] ].
Qed.

(** X6.  EnsureExists writes exactly one log line when it succeeds, which
    tells what it did to which service, and none when it returns an error:
    the creation of the desired service, the update of the service sent,
    or the skip of the service read, for want of owner labels or of a
    change. *)
Theorem ensure_exists_logs_what_it_did contour kind w :
  let key := svcKey contour kind in
  let out := run (EnsureExists contour kind) w in
  match out.1 with
  | Some _ => logs out.2 = []
  | None =>
      (∃ obj, calls out.2 = [CallGet key; CallCreate obj]
              ∧ logs out.2 = [logLine "created service" obj])
      ∨ (∃ obj, calls out.2 = [CallGet key; CallUpdate obj]
                ∧ logs out.2 = [logLine "updated service" obj])
      ∨ (∃ current w1,
           Get key w = (Ok current, w1)
           ∧ calls out.2 = [CallGet key]
           ∧ ((ownerLabelsExist current contour = false
               ∧ logs out.2
                 = [logLine "service missing owner labels; skipped updating" current])
              ∨ (ownerLabelsExist current contour = true
                 ∧ logs out.2
                   = [logLine "service unchanged; skipped updating" current])))
  end.
Proof.
  destruct kind; unfold_methods; exec_cases; cbn;
    first [ reflexivity
          | left; eexists; split; reflexivity
          | right; left; eexists; split; reflexivity
          | right; right; do 2 eexists; split_and!; [reflexivity | reflexivity |];
            first [ left; split; [eassumption | reflexivity]
                  | right; split; [eassumption | reflexivity] ] ].
Qed.

(** X7.  EnsureDeleted writes no log line when it returns an error or when
    the service was gone already (at the get, or at the delete); it logs a
    deletion only after a delete that the store accepted, and otherwise
    logs that it skipped a service without owner labels. *)
Theorem ensure_deleted_logs_what_it_did contour kind w :
  let key := svcKey contour kind in
  let out := run (EnsureDeleted contour kind) w in
  match out.1 with
  | Some _ => logs out.2 = []
  | None =>
      (∃ svc w1 w2,
         Get key w = (Ok svc, w1) ∧ Delete svc w1 = (None, w2)
         ∧ calls out.2 = [CallGet key; CallDelete svc]
         ∧ logs out.2 = [logLine "deleted service" svc])
      ∨ (∃ svc w1,
           Get key w = (Ok svc, w1) ∧ ownerLabelsExist svc contour = false
           ∧ calls out.2 = [CallGet key]
           ∧ logs out.2 = [logLine "service not labeled; skipping deletion" svc])
      ∨ (logs out.2 = []
         ∧ ((∃ err w1, Get key w = (Err err, w1) ∧ IsNotFound err = true)
            ∨ (∃ svc w1 err w2,
                 Get key w = (Ok svc, w1) ∧ Delete svc w1 = (Some err, w2)
                 ∧ IsNotFound err = true)))
  end.
Proof.
  destruct kind; unfold_methods; exec_cases; cbn;
    first [ reflexivity
          | left; do 3 eexists; split_and!; first [reflexivity | eassumption]
          | right; left; do 2 eexists; split_and!; first [reflexivity | eassumption]
          | right; right; split; [reflexivity|];
            first [ left; do 2 eexists; split; first [reflexivity | eassumption]
                  | right; do 4 eexists; split_and!;
                    first [reflexivity | eassumption] ] ].
Qed.

(** X8.  The child is named after its kind and its namespace is the one
    that the parent selects, whatever the name of the parent: two parents
    read the same key and want a service of the same namespace and name
    exactly when they select the same namespace and ask for the same
    kind. *)
Theorem children_are_named_per_namespace contour1 kind1 contour2 kind2 w :
  let same := contour_Spec_Namespace_Name contour1 = contour_Spec_Namespace_Name contour2
              ∧ kind1 = kind2 in
  (keyOf (desired contour1 kind1) = keyOf (desired contour2 kind2) ↔ same)
  ∧ (head (calls (run (EnsureExists contour1 kind1) w).2)
     = head (calls (run (EnsureExists contour2 kind2) w).2) ↔ same)
  ∧ (head (calls (run (EnsureDeleted contour1 kind1) w).2)
     = head (calls (run (EnsureDeleted contour2 kind2) w).2) ↔ same).
Proof.
  assert (Hkey : svcKey contour1 kind1 = svcKey contour2 kind2
                 ↔ contour_Spec_Namespace_Name contour1
                   = contour_Spec_Namespace_Name contour2 ∧ kind1 = kind2).
  { unfold svcKey. split.
    - intros [= Hns Hname]. split; [done|]. by destruct kind1, kind2.
    - by intros [-> ->]. }
  assert (Hex : ∀ contour kind,
             head (calls (run (EnsureExists contour kind) w).2)
             = Some (CallGet (svcKey contour kind))).
  { intros contour kind. destruct kind; unfold_methods; exec_cases; reflexivity. }
  assert (Hdel : ∀ contour kind,
             head (calls (run (EnsureDeleted contour kind) w).2)
             = Some (CallGet (svcKey contour kind))).
  { intros contour kind. destruct kind; unfold_methods; exec_cases; reflexivity. }
  cbv zeta. rewrite !desired_key, !Hex, !Hdel. split; [done|].
  split; (split; [intros Heq; apply Hkey; congruence
                 | intros Hs; by rewrite (proj2 Hkey Hs)]).
Qed.
End Further.

(** ** The operations composed, on the store in memory *)

Lemma hasKey_same_key (key : types.NamespacedName) (a b : Service) :
  keyOf a = keyOf b → hasKey key a = hasKey key b.
Proof. unfold hasKey, keyOf. by intros [= -> ->]. Qed.

Lemma find_filter_out {A} (p : A → bool) (l : list A) :
  find p (List.filter (λ x, negb (p x)) l) = None.
Proof.
  induction l as [|x l IH]; [done|]. cbn. destruct (p x) eqn:Hx; cbn; [done|].
  by rewrite Hx.
Qed.

Lemma filter_out_absent {A} (p : A → bool) (l : list A) :
  find p l = None → List.filter (λ x, negb (p x)) l = l.
Proof.
  induction l as [|x l IH]; [done|]. cbn. destruct (p x); [done|]. cbn.
  intros Hl. by rewrite IH.
Qed.

Lemma find_replace_is_Some (key : types.NamespacedName) (s : list Service)
    (new : Service) :
  is_Some (find (hasKey key) s) →
  is_Some (find (hasKey key)
             (map (λ o, if hasKey (keyOf new) o then new else o) s)).
Proof.
  induction s as [|o s IH]; [done|]. cbn.
  destruct (hasKey (keyOf new) o) eqn:Hnew.
  - apply hasKey_true in Hnew.
    rewrite (hasKey_same_key key new o) by done.
    destruct (hasKey key o); [eauto | exact IH].
  - destruct (hasKey key o); [eauto | exact IH].
Qed.

Lemma mem_Get_found (key : types.NamespacedName) (s : list Service) (svc : Service) :
  find (hasKey key) s = Some svc → Get (Client := memClient) key s = (Ok svc, s).
Proof. intros Hfind. cbn. unfold mem_Get. by rewrite Hfind. Qed.

Lemma mem_Get_absent (key : types.NamespacedName) (s : list Service) :
  find (hasKey key) s = None →
  Get (Client := memClient) key s = (Err (NewNotFound (types.Name key)), s).
Proof. intros Hfind. cbn. unfold mem_Get. by rewrite Hfind. Qed.

Lemma mem_Delete_found (key : types.NamespacedName) (s : list Service) (svc : Service) :
  find (hasKey key) s = Some svc →
  Delete (Client := memClient) svc s
  = (None, List.filter (λ o, negb (hasKey key o)) s).
Proof.
  intros Hfind. apply find_Some_existsb in Hfind as [Hex Hkey].
  apply hasKey_true in Hkey. cbn. unfold mem_Delete. by rewrite Hkey, Hex.
Qed.

Section Composed.
Context {consts : Consts} {helpers : Helpers}.

Implicit Types (contour : Contour) (kind : ServiceKind) (s : list Service).

Lemma mem_exists_absent contour kind s :
  find (hasKey (svcKey contour kind)) s = None →
  let out := run (EnsureExists (client := memClient) contour kind) s in
  out.1 = None
  ∧ world out.2 = desired contour kind :: s
  ∧ find (hasKey (svcKey contour kind)) (world out.2) = Some (desired contour kind).
Proof.
  intros Hfind.
  assert (Hcreate : Create (Client := memClient) (desired contour kind) s
                    = (None, desired contour kind :: s)).
  { cbn. unfold mem_Create.
    by rewrite desired_key, (find_None_existsb _ _ Hfind). }
  destruct (exists_absent (client := memClient) contour kind s _ s _ _
              (mem_Get_absent _ _ Hfind) eq_refl Hcreate) as (H1 & _ & Hw).
  cbv zeta. rewrite Hw, H1. repeat split.
  cbn. by rewrite <- (desired_key contour kind), hasKey_keyOf.
Qed.

(** X9.  On the store in memory, whatever the owner label check: a run of
    EnsureDeleted succeeds, and a second run from the store as the first
    left it makes the get and no other call and leaves the store as it is.
    When the service was there and owned, it is gone after the first run. *)
Theorem mem_ensure_deleted_twice contour kind s :
  let key := svcKey contour kind in
  let first := run (EnsureDeleted (client := memClient) contour kind) s in
  let second := run (EnsureDeleted (client := memClient) contour kind)
                    (world first.2) in
  first.1 = None
  ∧ second.1 = None
  ∧ calls second.2 = [CallGet key]
  ∧ world second.2 = world first.2
  ∧ (∀ svc, find (hasKey key) s = Some svc →
            ownerLabelsExist svc contour = true →
            find (hasKey key) (world first.2) = None).
Proof.
  cbv zeta. destruct (find (hasKey (svcKey contour kind)) s) as [svc|] eqn:Hfind.
  - pose proof (mem_Get_found _ _ _ Hfind) as Hget.
    destruct (ownerLabelsExist svc contour) eqn:Hown.
    + pose proof (mem_Delete_found _ _ _ Hfind) as Hdel.
      destruct (deleted_owned (client := memClient) contour kind s svc s _ _
                  Hget Hown Hdel) as (H1 & _ & Hw).
      rewrite Hw, H1.
      pose proof (find_filter_out (hasKey (svcKey contour kind)) s) as Hgone.
      destruct (deleted_get_failed (client := memClient) contour kind _ _ _
                  (mem_Get_absent _ _ Hgone)) as (-> & -> & ->).
      by repeat split.
    + destruct (deleted_unowned (client := memClient) contour kind s svc s
                  Hget Hown) as (H1 & H2 & Hw).
      rewrite Hw, H1, H2. repeat split; try done.
      intros svc' [= <-] Hown'. congruence.
  - destruct (deleted_get_failed (client := memClient) contour kind _ _ _
                (mem_Get_absent _ _ Hfind)) as (H1 & H2 & Hw).
    rewrite Hw, H1, H2. by repeat split.
Qed.

(** X10.  On the store in memory, whatever the owner label check and the
    detectors: after a run of EnsureExists the store holds a service under
    the key of the child; and when it held none before, the run succeeds
    and the store is the old one with the desired service added. *)
Theorem mem_ensure_exists_establishes contour kind s :
  let key := svcKey contour kind in
  let out := run (EnsureExists (client := memClient) contour kind) s in
  is_Some (find (hasKey key) (world out.2))
  ∧ (find (hasKey key) s = None →
     out.1 = None ∧ world out.2 = desired contour kind :: s).
Proof.
  cbv zeta. destruct (find (hasKey (svcKey contour kind)) s) as [current|] eqn:Hfind.
  - split; [|done].
    pose proof (mem_Get_found _ _ _ Hfind) as Hget.
    destruct (ownerLabelsExist current contour) eqn:Hown.
    + destruct (serviceChanged kind current (desired contour kind))
        as [svc changed] eqn:Hch.
      destruct changed.
      * destruct (Update (Client := memClient) svc s) as [r s'] eqn:Hupd.
        destruct (exists_changed (client := memClient) contour kind s current s
                    svc r s' Hget Hown Hch Hupd) as (_ & _ & ->).
        cbn in Hupd. unfold mem_Update in Hupd.
        destruct (existsb (hasKey (keyOf svc)) s); simplify_eq.
        -- apply find_replace_is_Some. by rewrite Hfind.
        -- by rewrite Hfind.
      * destruct (exists_unchanged (client := memClient) contour kind s current s
                    svc Hget Hch) as (_ & _ & ->).
        by rewrite Hfind.
    + destruct (exists_unowned (client := memClient) contour kind s current s
                  Hget Hown) as (_ & _ & ->).
      by rewrite Hfind.
  - destruct (mem_exists_absent contour kind s Hfind) as (H1 & Hw & Hnew).
    by rewrite Hnew, H1, Hw.
Qed.

(** X11.  On the store in memory, when the store holds no service under
    the key of the child and the owner label check accepts the desired
    service for its parent: EnsureExists and then EnsureDeleted both
    succeed and give back the store they started from. *)
Theorem mem_create_then_delete contour kind s :
  find (hasKey (svcKey contour kind)) s = None →
  ownerLabelsExist (desired contour kind) contour = true →
  let created := run (EnsureExists (client := memClient) contour kind) s in
  let deleted := run (EnsureDeleted (client := memClient) contour kind)
                     (world created.2) in
  created.1 = None
  ∧ deleted.1 = None
  ∧ calls deleted.2 = [CallGet (svcKey contour kind);
                       CallDelete (desired contour kind)]
  ∧ world deleted.2 = s.
Proof.
  intros Hfind Hown.
  destruct (mem_exists_absent contour kind s Hfind) as (H1 & Hw & Hfind').
  cbv zeta. rewrite Hw in Hfind' |- *. rewrite H1.
  destruct (deleted_owned (client := memClient) contour kind _ _ _ _ _
              (mem_Get_found _ _ _ Hfind') Hown (mem_Delete_found _ _ _ Hfind'))
    as (-> & -> & ->).
  repeat split; try done.
  cbn. rewrite <- (desired_key contour kind), hasKey_keyOf. cbn.
  rewrite desired_key. by apply filter_out_absent.
Qed.

(** X12.  On the store in memory, a service that one parent created is
    safe from another parent that selects the same namespace, whenever the
    owner label check rejects the service for that other parent: its
    EnsureExists and its EnsureDeleted make the get and nothing else,
    succeed, and leave the store as it is. *)
Theorem mem_other_parent_keeps_off contour other kind s :
  contour_Spec_Namespace_Name other = contour_Spec_Namespace_Name contour →
  find (hasKey (svcKey contour kind)) s = None →
  ownerLabelsExist (desired contour kind) other = false →
  let created := run (EnsureExists (client := memClient) contour kind) s in
  let ex := run (EnsureExists (client := memClient) other kind) (world created.2) in
  let del := run (EnsureDeleted (client := memClient) other kind) (world created.2) in
  world created.2 = desired contour kind :: s
  ∧ (ex.1 = None ∧ calls ex.2 = [CallGet (svcKey contour kind)]
     ∧ world ex.2 = desired contour kind :: s)
  ∧ (del.1 = None ∧ calls del.2 = [CallGet (svcKey contour kind)]
     ∧ world del.2 = desired contour kind :: s).
Proof.
  intros Hsel Hfind Hown.
  destruct (mem_exists_absent contour kind s Hfind) as (_ & Hw & Hfind').
  cbv zeta. rewrite Hw in Hfind' |- *.
  assert (Hkey : svcKey other kind = svcKey contour kind)
    by (unfold svcKey; by rewrite Hsel).
  rewrite <- Hkey in Hfind'.
  pose proof (mem_Get_found _ _ _ Hfind') as Hget.
  destruct (exists_unowned (client := memClient) other kind _ _ _ Hget Hown)
    as (-> & -> & ->).
  destruct (deleted_unowned (client := memClient) other kind _ _ _ Hget Hown)
    as (-> & -> & ->).
  by rewrite Hkey.
Qed.
End Composed.

(** ** The further properties on sample inputs *)

(** X1 on the sample parent and a store that holds the stale service and
    accepts the update. *)
Lemma ensure_exists_updates_when_changed_witness :
  let out := run (sampleEnsureExists scriptedClient Internal) compliant in
  out.1 = None
  ∧ count isUpdate (calls out.2) = 1%nat
  ∧ count isCreate (calls out.2) = 0%nat.
Proof.
  cbv zeta.
  destruct (ensure_exists_updates_when_changed (client := scriptedClient)
              (consts := sampleConsts)
              (helpers := specHelpers (consts := sampleConsts))
              sampleContour Internal compliant staleService compliant
              (spec_ClusterIPServiceChanged staleService
                 (DesiredContourService (consts := sampleConsts) sampleContour)).1
              None compliant)
    as (_ & H2 & H3 & _ & H5);
    [reflexivity | vm_compute; reflexivity | vm_compute; reflexivity | reflexivity |].
  split; [by apply H5 | split; [exact H2 | exact H3]].
Defined.

(** X2 on the sample parent: the create on the empty store follows a
    NotFound, and the update of the stale service follows the owner label
    check. *)
Lemma ensure_exists_mutations_are_gated_witness :
  (∃ err w1, Get (Client := memClient) (svcKey sampleContour Internal) []
             = (Err err, w1) ∧ IsNotFound err = true)
  ∧ (∃ current w1,
       Get (Client := memClient) (svcKey sampleContour Internal) [staleService]
       = (Ok current, w1)
       ∧ spec_ownerLabelsExist (consts := sampleConsts) current sampleContour = true).
Proof.
  split.
  - destruct (ensure_exists_mutations_are_gated (client := memClient)
                (consts := sampleConsts)
                (helpers := specHelpers (consts := sampleConsts))
                sampleContour Internal []) as [Hcreate _].
    destruct (Hcreate (DesiredContourService (consts := sampleConsts) sampleContour))
      as [_ Hnf]; [vm_compute; right; left | exact Hnf].
  - destruct (ensure_exists_mutations_are_gated (client := memClient)
                (consts := sampleConsts)
                (helpers := specHelpers (consts := sampleConsts))
                sampleContour Internal [staleService]) as [_ Hupdate].
    destruct (Hupdate (spec_ClusterIPServiceChanged staleService
                         (DesiredContourService (consts := sampleConsts)
                            sampleContour)).1)
      as (current & w1 & Hget & Hown & _); [vm_compute; right; left |].
    exists current, w1. split; [exact Hget | exact Hown].
Defined.

(** X3 on the sample parent: a delete that the store accepts, and one that
    it refuses. *)
Lemma ensure_deleted_deletes_owned_witness :
  (let out := run (sampleEnsureDeleted scriptedClient Internal) compliant in
   out.1 = None ∧ logs out.2 = [logLine "deleted service" staleService])
  ∧ (let out := run (sampleEnsureDeleted scriptedClient Internal) deleteForbidden in
     out.1 = Some (StatusError "Forbidden" "services is forbidden")
     ∧ logs out.2 = []).
Proof.
  split; cbv zeta.
  - destruct (ensure_deleted_deletes_owned (client := scriptedClient)
                (helpers := specHelpers (consts := sampleConsts))
                sampleContour Internal compliant staleService compliant None compliant)
      as (_ & _ & _ & Hok & _);
      [reflexivity | vm_compute; reflexivity | reflexivity |].
    by apply Hok.
  - destruct (ensure_deleted_deletes_owned (client := scriptedClient)
                (helpers := specHelpers (consts := sampleConsts))
                sampleContour Internal deleteForbidden staleService deleteForbidden
                (Some (StatusError "Forbidden" "services is forbidden"))
                deleteForbidden)
      as (_ & _ & _ & _ & Hfail);
      [reflexivity | vm_compute; reflexivity | reflexivity |].
    apply Hfail; reflexivity.
Defined.

(** X4 on the sample parent and a store that cannot be reached: the error
    returned is the error of the get. *)
Lemma ensure_deleted_error_is_a_store_error_witness :
  IsNotFound (errorString "connection refused") = false
  ∧ ((∃ w1, Get (Client := scriptedClient) (svcKey sampleContour Internal) unreachable
            = (Err (errorString "connection refused"), w1))
     ∨ (∃ svc w1 w2,
          Get (Client := scriptedClient) (svcKey sampleContour Internal) unreachable
          = (Ok svc, w1)
          ∧ spec_ownerLabelsExist (consts := sampleConsts) svc sampleContour = true
          ∧ Delete (Client := scriptedClient) svc w1
            = (Some (errorString "connection refused"), w2))).
Proof.
  apply (ensure_deleted_error_is_a_store_error (client := scriptedClient)
           (helpers := specHelpers (consts := sampleConsts))
           sampleContour Internal unreachable (errorString "connection refused")).
  reflexivity.
Defined.

(** X5 on the sample parent and a store that refuses the update: the
    error returned wraps, two steps down, the conflict that the store
    reported. *)
Lemma ensure_exists_error_wraps_a_store_error_witness :
  ∃ err msg msg',
    (run (sampleEnsureExists scriptedClient Internal) updateConflict).1
    = Some (wrapError msg (wrapError msg' err))
    ∧ onUpdate updateConflict = Some err.
Proof.
  destruct (ensure_exists_error_wraps_a_store_error (client := scriptedClient)
              (consts := sampleConsts)
              (helpers := specHelpers (consts := sampleConsts))
              sampleContour Internal updateConflict
              (failedTo "update" "projectcontour" "contour"
                 (failedTo "update" "projectcontour" "contour"
                    (StatusError "Conflict" "the object has been modified"))))
    as [Hget | [Hcreate | Hupdate]]; [vm_compute; reflexivity | | |].
  - destruct Hget as (err & w1 & msg & Hget & _). discriminate Hget.
  - destruct Hcreate as (err0 & w1 & err & w2 & msg & Hget & _). discriminate Hget.
  - destruct Hupdate as (current & w1 & svc & err & w2 & msg & msg' & Hget & Hupd & He).
    unfold failedTo in He. injection He as <- <- <-.
    do 3 eexists. split.
    + vm_compute. reflexivity.
    + reflexivity.
Defined.

(** X8 on the two sample parents, which select the same namespace. *)
Lemma children_are_named_per_namespace_witness :
  keyOf (desired (consts := sampleConsts) sampleContour External)
  = keyOf (desired (consts := sampleConsts) otherContour External)
  ∧ keyOf (desired (consts := sampleConsts) sampleContour External)
    ≠ keyOf (desired (consts := sampleConsts) otherContour Internal).
Proof.
  split.
  - apply (children_are_named_per_namespace (client := scriptedClient)
             (consts := sampleConsts)
             (helpers := specHelpers (consts := sampleConsts))
             sampleContour External otherContour External unreachable).
    split; reflexivity.
  - intros Hkey.
    apply (children_are_named_per_namespace (client := scriptedClient)
             (consts := sampleConsts)
             (helpers := specHelpers (consts := sampleConsts))
             sampleContour External otherContour Internal unreachable) in Hkey.
    destruct Hkey as [_ Hkind]. discriminate Hkind.
Defined.

(** X9 on the sample parent and a store that holds the stale service,
    which is owned: the first run removes it. *)
Lemma mem_ensure_deleted_twice_witness :
  let first := run (sampleEnsureDeleted memClient Internal) [staleService] in
  let second := run (sampleEnsureDeleted memClient Internal) (world first.2) in
  second.1 = None
  ∧ calls second.2 = [CallGet (svcKey sampleContour Internal)]
  ∧ find (hasKey (svcKey sampleContour Internal)) (world first.2) = None.
Proof.
  cbv zeta.
  destruct (mem_ensure_deleted_twice
              (helpers := specHelpers (consts := sampleConsts))
              sampleContour Internal [staleService]) as (_ & H2 & H3 & _ & Hgone).
  split; [exact H2 | split; [exact H3 |]].
  apply (Hgone staleService); vm_compute; reflexivity.
Defined.

(** X10 on the sample parent and the empty store. *)
Lemma mem_ensure_exists_establishes_witness :
  let out := run (sampleEnsureExists memClient External) [] in
  out.1 = None
  ∧ world out.2 = [DesiredEnvoyService (consts := sampleConsts) sampleContour].
Proof.
  cbv zeta.
  destruct (mem_ensure_exists_establishes (consts := sampleConsts)
              (helpers := specHelpers (consts := sampleConsts))
              sampleContour External []) as [_ Hnew].
  apply Hnew. reflexivity.
Defined.

(** X11 on the sample parent and a store that holds the foreign Contour
    service only: the Envoy service comes and goes. *)
Lemma mem_create_then_delete_witness :
  let created := run (sampleEnsureExists memClient External) [foreignService] in
  let deleted := run (sampleEnsureDeleted memClient External) (world created.2) in
  created.1 = None ∧ deleted.1 = None ∧ world deleted.2 = [foreignService].
Proof.
  cbv zeta.
  destruct (mem_create_then_delete (consts := sampleConsts)
              (helpers := specHelpers (consts := sampleConsts))
              sampleContour External [foreignService])
    as (H1 & H2 & _ & H4); [reflexivity | vm_compute; reflexivity |].
  split; [exact H1 | split; [exact H2 | exact H4]].
Defined.

(** X12 on the two sample parents: the second leaves alone the Contour
    service of the first. *)
Lemma mem_other_parent_keeps_off_witness :
  let created := run (sampleEnsureExists memClient Internal) [] in
  let del := run (EnsureDeleted (client := memClient)
                    (helpers := specHelpers (consts := sampleConsts))
                    otherContour Internal) (world created.2) in
  del.1 = None
  ∧ world del.2 = [DesiredContourService (consts := sampleConsts) sampleContour].
Proof.
  cbv zeta.
  destruct (mem_other_parent_keeps_off (consts := sampleConsts)
              (helpers := specHelpers (consts := sampleConsts))
              sampleContour otherContour Internal [])
    as (_ & _ & H1 & _ & H3); [reflexivity | reflexivity | vm_compute; reflexivity |].
  split; [exact H1 | exact H3].
Defined.
